(** * glm: the command handlers of the GitHub label manager

    A shallow embedding of [glm/core.py]: the five command handlers
    ([auth_command], [list_command], [create_command], [delete_command],
    [update_command]) as computations in a small monad that threads the
    process environment (standard input, the file system, the remote
    service) and records what the handler does (standard output, HTTP
    requests) as a list of events. *)

From Stdlib Require Import ZArith Ascii String.
From stdpp Require Import gmap strings list fin_maps.

Set Warnings "-register-all".

(** ** Python strings

    A Python [str] is modelled by its UTF-8 encoding, a [string] of bytes.
    [len] counts code points, that is the bytes that are not UTF-8
    continuation bytes. *)

Module PyStr.

Definition is_continuation (a : ascii) : bool :=
  let n := N_of_ascii a in (128 <=? n)%N && (n <? 192)%N.

(** [len(s)] *)
Fixpoint len (s : string) : nat :=
  match s with
  | EmptyString => 0
  | String a s' => if is_continuation a then len s' else S (len s')
  end.

Definition lower_char (a : ascii) : ascii :=
  let n := N_of_ascii a in
  if (65 <=? n)%N && (n <=? 90)%N then ascii_of_N (n + 32) else a.

(** [s.lower()].  Only the letters A to Z are mapped.  Python also maps
    cased letters outside ASCII, none of which lowers to one of the
    letters n, o, y, e, s that [delete_command] compares against. *)
Fixpoint lower (s : string) : string :=
  match s with
  | EmptyString => EmptyString
  | String a s' => String (lower_char a) (lower s')
  end.

Fixpoint spaces (n : nat) : string :=
  match n with
  | O => ""
  | S n' => String " "%char (spaces n')
  end.

(** [s.center(width)], as CPython pads: the left margin is
    [marg / 2 + (marg & width & 1)], the right margin is the rest. *)
Definition center (s : string) (width : nat) : string :=
  let marg := width - len s in
  let left := Nat.div2 marg + (if Nat.odd marg && Nat.odd width then 1 else 0) in
  spaces left +:+ s +:+ spaces (marg - left).

(** [sep.join(l)] *)
Fixpoint join (sep : string) (l : list string) : string :=
  match l with
  | [] => ""
  | [x] => x
  | x :: l' => x +:+ sep +:+ join sep l'
  end.

(** [needle in hay] for two strings *)
Fixpoint contains (needle hay : string) : bool :=
  String.prefix needle hay ||
  match hay with
  | EmptyString => false
  | String _ hay' => contains needle hay'
  end.

(** The ASCII characters for which [str.isspace] holds. *)
Definition is_space (a : ascii) : bool :=
  let n := N_of_ascii a in
  ((9 <=? n)%N && (n <=? 13)%N) || ((28 <=? n)%N && (n <=? 32)%N).

Fixpoint lstrip (s : string) : string :=
  match s with
  | EmptyString => EmptyString
  | String a s' => if is_space a then lstrip s' else s
  end.

Fixpoint rstrip (s : string) : string :=
  match s with
  | EmptyString => EmptyString
  | String a s' =>
      match rstrip s' with
      | EmptyString => if is_space a then EmptyString else String a EmptyString
      | r => String a r
      end
  end.

(** [s.strip()], for the white space of ASCII: Python also trims the
    white space outside ASCII (U+00A0, U+2003, U+3000 and the like), which
    this model leaves in place. *)
Definition strip (s : string) : string := rstrip (lstrip s).

(** The code points of [s], each as a string of its own: what iterating
    over a [str] yields. *)
Fixpoint chars_from (cur : string) (s : string) : list string :=
  match s with
  | EmptyString => [cur]
  | String a s' =>
      if is_continuation a then chars_from (cur +:+ String a "") s'
      else cur :: chars_from (String a "") s'
  end.

Definition chars (s : string) : list string :=
  match s with
  | EmptyString => []
  | String a s' => chars_from (String a "") s'
  end.

End PyStr.

(** ** Python values

    The values the handlers receive from the argument parser and from
    [Response.json()]: [None], booleans, integers, strings, lists and
    dictionaries with string keys. *)

Inductive pyval : Type :=
  | PNone
  | PBool (b : bool)
  | PInt (z : Z)
  | PStr (s : string)
  | PList (l : list pyval)
  | PDict (d : gmap string pyval).

Inductive exn : Type :=
  | EOFError
  | TypeError
  | KeyError
  | AttributeError
  | ValueError
  | OSError
  | RequestException
  | MissingCredentialsError.

(** Python's truth value of an object, as [if v], [and v] and [any] test it. *)
Definition truthy (v : pyval) : bool :=
  match v with
  | PNone => false
  | PBool b => b
  | PInt z => negb (z =? 0)%Z
  | PStr s => negb (String.eqb s "")
  | PList l => match l with [] => false | _ => true end
  | PDict d => negb (bool_decide (d = ∅))
  end.

(** [any(l)] *)
Definition any (l : list pyval) : bool := existsb truthy l.

(** ** Fallible evaluation

    An expression either yields a value or raises an exception. *)

Inductive result (A : Type) : Type :=
  | Ok (a : A)
  | Err (e : exn).
Arguments Ok {A} a.
Arguments Err {A} e.

#[global] Instance result_ret : MRet result := λ A a, Ok a.
#[global] Instance result_bind : MBind result := λ A B f r,
  match r with
  | Ok a => f a
  | Err e => Err e
  end.

(** [l.mapM f]: evaluate [f] on the elements from left to right, stopping
    at the first exception. *)
Fixpoint mapR {A B : Type} (f : A → result B) (l : list A) : result (list B) :=
  match l with
  | [] => Ok []
  | x :: l' => y ← f x; ys ← mapR f l'; Ok (y :: ys)
  end.

Module Py.

(** [len(v)] *)
Definition len (v : pyval) : result nat :=
  match v with
  | PStr s => Ok (PyStr.len s)
  | PList l => Ok (length l)
  | PDict d => Ok (size d)
  | _ => Err TypeError
  end.

(** The elements [for x in v] runs through.  A dictionary yields its keys;
    Python yields them in insertion order, which the map does not record:
    the model takes them in the order of [map_to_list]. *)
Definition iter (v : pyval) : result (list pyval) :=
  match v with
  | PStr s => Ok (PStr <$> PyStr.chars s)
  | PList l => Ok l
  | PDict d => Ok (PStr <$> (map_to_list d).*1)
  | _ => Err TypeError
  end.

(** [v[key]] for a string key: only a dictionary can be indexed by a
    string. *)
Definition getitem (v : pyval) (key : string) : result pyval :=
  match v with
  | PDict d => match d !! key with Some x => Ok x | None => Err KeyError end
  | _ => Err TypeError
  end.

(** [v.get(key, dflt)]: a method of dictionaries only. *)
Definition get (v : pyval) (key : string) (dflt : pyval) : result pyval :=
  match v with
  | PDict d => Ok (default dflt (d !! key))
  | _ => Err AttributeError
  end.

(** [needle in v] for a string [needle] *)
Definition contains (needle : string) (v : pyval) : result bool :=
  match v with
  | PStr s => Ok (PyStr.contains needle s)
  | PList l =>
      Ok (existsb (λ x, match x with PStr s => String.eqb s needle | _ => false end) l)
  | PDict d => Ok (bool_decide (is_Some (d !! needle)))
  | _ => Err TypeError
  end.

Definition as_str (v : pyval) : result string :=
  match v with
  | PStr s => Ok s
  | _ => Err TypeError
  end.

(** [sep.join(v)]: [v] must be iterable and yield strings only. *)
Definition join (sep : string) (v : pyval) : result string :=
  xs ← iter v; ss ← mapR as_str xs; Ok (PyStr.join sep ss).

(** [max(l, key=len)]: the first element of greatest length. *)
Fixpoint max_by_len (best : pyval) (n : nat) (l : list pyval) : result pyval :=
  match l with
  | [] => Ok best
  | x :: l' =>
      m ← len x;
      if n <? m then max_by_len x m l' else max_by_len best n l'
  end.

Definition max_len (l : list pyval) : result pyval :=
  match l with
  | [] => Err ValueError
  | x :: l' => n ← len x; max_by_len x n l'
  end.

(** [v.center(width)]: a method of strings only. *)
Definition center (v : pyval) (width : nat) : result string :=
  match v with
  | PStr s => Ok (PyStr.center s width)
  | _ => Err AttributeError
  end.

End Py.

(** ** The process environment and the handler monad *)

Inductive method : Type := GET | POST | PATCH | DELETE.

(** A call of [requests.get], [post], [patch] or [delete]: the URL, the
    query parameters ([params=]) and the JSON payload ([json=]), if any. *)
Record request : Type := Request {
  rq_method : method;
  rq_url : string;
  rq_params : gmap string string;
  rq_json : option (gmap string pyval)
}.

(** What the handlers use of a [requests.Response]: the status code, and
    the value [Response.json()] decodes the body to ([None] when the body
    is not JSON, in which case [json()] raises [ValueError]). *)
Record response : Type := Response {
  status_code : Z;
  body : option pyval
}.

Inductive event : Type :=
  | Print (s : string)      (* print(s): a line on standard output *)
  | Write (s : string)      (* sys.stdout.write(s) *)
  | Input (s : string)      (* input() has read the line s *)
  | Http (rq : request).    (* a request was sent *)

(** The environment of the process: the lines waiting on standard input,
    the content of the files by path, the paths that cannot be opened for
    writing, and the remote service, which answers a request with a
    response or makes [requests] raise. *)
Record world : Type := World {
  stdin : list string;
  files : gmap string string;
  unwritable : gset string;
  http : request → result response
}.

Inductive outcome (A : Type) : Type :=
  | Returned (a : A)        (* the handler returns *)
  | Exited (code : Z)       (* sys.exit(code) *)
  | Raised (e : exn).       (* an exception leaves the handler *)
Arguments Returned {A} a.
Arguments Exited {A} code.
Arguments Raised {A} e.

Definition IO (A : Type) : Type := world → outcome A * world * list event.

#[global] Instance io_ret : MRet IO := λ A a w, (Returned a, w, []).
#[global] Instance io_bind : MBind IO := λ A B f m w,
  match m w with
  | (Returned a, w1, ev1) => let '(o, w2, ev2) := f a w1 in (o, w2, ev1 ++ ev2)
  | (Exited c, w1, ev1) => (Exited c, w1, ev1)
  | (Raised e, w1, ev1) => (Raised e, w1, ev1)
  end.

Definition raise {A : Type} (e : exn) : IO A := λ w, (Raised e, w, []).
Definition sys_exit {A : Type} (code : Z) : IO A := λ w, (Exited code, w, []).
Definition lift {A : Type} (r : result A) : IO A :=
  match r with
  | Ok a => mret a
  | Err e => raise e
  end.

Definition print (s : string) : IO unit := λ w, (Returned tt, w, [Print s]).

Definition requests_send (rq : request) : IO response := λ w,
  match http w rq with
  | Ok r => (Returned r, w, [Http rq])
  | Err e => (Raised e, w, [Http rq])
  end.

(** [r.json()] *)
Definition response_json (r : response) : IO pyval :=
  match body r with
  | Some v => mret v
  | None => raise ValueError
  end.

Definition newline : string := String "010"%char "".

(** [f = open(path, 'w'); print(line, file=f); f.close()]: opening
    truncates the file, [print] appends a newline to what it writes. *)
Definition write_line (path line : string) : IO unit := λ w,
  if bool_decide (path ∈ unwritable w) then (Raised OSError, w, [])
  else (Returned tt,
        World (stdin w) (<[path := line +:+ newline]> (files w)) (unwritable w) (http w),
        []).

(** [for x in l: body(x)] *)
Fixpoint for_each {A : Type} (l : list A) (f : A → IO unit) : IO unit :=
  match l with
  | [] => mret tt
  | x :: l' => _ ← f x; for_each l' f
  end.

(** The events of a run that are requests, and those that belong to a
    prompt. *)
Definition is_http (e : event) : bool :=
  match e with Http _ => true | _ => false end.
Definition is_prompt (e : event) : bool :=
  match e with Write _ | Input _ => true | _ => false end.
Definition requests_of (ev : list event) : list request :=
  omap (λ e, match e with Http rq => Some rq | _ => None end) ev.
Definition prompts_of (ev : list event) : list event := List.filter is_prompt ev.
Definition printed (ev : list event) : list string :=
  omap (λ e, match e with Print s => Some s | _ => None end) ev.

(** ** The command handlers *)

(** The namespaces the argument parser hands to the handlers.  An option
    declared with [NameArg] collects its words in a list; an option that is
    not given is [None]. *)
Record auth_args : Type := AuthArgs { auth_token : string }.
Record list_args : Type := ListArgs { list_repo : string; show_colors : bool }.
Record create_args : Type := CreateArgs {
  create_repo : string;
  create_name : list string;
  create_color : string
}.
Record delete_args : Type := DeleteArgs {
  delete_repo : string;
  delete_name : list string;
  force : bool
}.
Record update_args : Type := UpdateArgs {
  update_repo : string;
  label_name : list string;
  update_name : option (list string);
  update_color : option string
}.

Definition py_words (l : list string) : pyval := PList (PStr <$> l).
Definition py_option {A : Type} (f : A → pyval) (o : option A) : pyval :=
  match o with
  | Some a => f a
  | None => PNone
  end.

(** [vars(args)] for the namespace of [update]. *)
Definition vars (args : update_args) : gmap string pyval :=
  <["repo" := PStr (update_repo args)]>
  (<["label_name" := py_words (label_name args)]>
  (<["name" := py_option py_words (update_name args)]>
  (<["color" := py_option PStr (update_color args)]> ∅))).

(** The [while not args.force] loop of [delete_command], run on the lines
    standard input still holds: the outcome ([false] for the [return],
    [true] for the [break]), the lines left and the events.  [input()]
    raises [EOFError] when standard input is exhausted. *)
Fixpoint confirm (ask : string) (lines : list string)
  : outcome bool * list string * list event :=
  match lines with
  | [] => (Raised EOFError, [], [Write ask])
  | line :: rest =>
      let choice := PyStr.lower line in
      if String.eqb choice "" || String.eqb choice "n" || String.eqb choice "no"
      then (Returned false, rest, [Write ask; Input line])
      else if String.eqb choice "y" || String.eqb choice "yes"
      then (Returned true, rest, [Write ask; Input line])
      else let '(o, rest', ev) := confirm ask rest in
           (o, rest', Write ask :: Input line :: ev)
  end.

Definition with_stdin (w : world) (lines : list string) : world :=
  World lines (files w) (unwritable w) (http w).

Definition confirm_io (ask : string) : IO bool := λ w,
  let '(o, rest, ev) := confirm ask (stdin w) in
  (o, with_stdin w rest, ev).

Section Handlers.

(** [config.__github_url__] and [config.__token_file__] *)
Variable github_url : string.
Variable token_file : string.

(** [utils.parse_validation_error] and [utils.text_color], [x256.from_hex]
    and the escape sequences [bg], [fg], [attr] of [colored]. *)
Variable parse_validation_error : string → pyval → result string.
Variable text_color : string → result string.
Variable from_hex : string → result Z.
Variable bg : Z → string.
Variable fg : string → string.
Variable attr : Z → string.

(** Modelled from the spec: [utils.get_access_token] is not part of the
    sources.  It "reads and trims the token; fails with
    MissingCredentialsError if the file does not exist or is empty". *)
Definition get_access_token : IO string := λ w,
  match files w !! token_file with
  | None => (Raised MissingCredentialsError, w, [])
  | Some content =>
      if String.eqb content "" then (Raised MissingCredentialsError, w, [])
      else (Returned (PyStr.strip content), w, [])
  end.

Definition access_params (token : string) : gmap string string :=
  {[ "access_token" := token ]}.

Definition auth_command (args : auth_args) : IO unit :=
  _ ← write_line token_file (auth_token args);
  print "🚀  Authentication stored!".

(** One line of the list: the escape sequences, the centred name and the
    optional colour suffix.  [x256.from_hex] and [utils.text_color] work on
    the colour as a string; the model raises [TypeError] for a colour that
    is not one. *)
Definition list_row (show : bool) (spacing : nat) (row : pyval) : IO unit :=
  name ← lift (Py.getitem row "name");
  c ← lift (Py.getitem row "color");
  hex ← lift (Py.as_str c);
  code ← lift (from_hex hex);
  text ← lift (text_color hex);
  centered ← lift (Py.center name spacing);
  print (bg code +:+ fg text +:+ " " +:+ centered +:+ " " +:+ attr 0 +:+ " "
         +:+ (if show then "[#" +:+ hex +:+ "]" else "")).

(** [len(max([x['name'] for x in res], key=len))] *)
Definition spacing_of (res : pyval) : result nat :=
  rows ← Py.iter res;
  names ← mapR (λ x, Py.getitem x "name") rows;
  longest ← Py.max_len names;
  Py.len longest.

Definition list_command (args : list_args) : IO unit :=
  token ← get_access_token;
  let url := github_url +:+ "/repos/" +:+ list_repo args +:+ "/labels" in
  r ← requests_send (Request GET url (access_params token) None);
  res ← response_json r;
  n ← lift (Py.len res);
  _ ← (if Nat.eqb n 0
       then (_ ← print "❗  No labels found"; sys_exit 0)
       else mret tt);
  spacing ← lift (spacing_of res);
  rows ← lift (Py.iter res);
  for_each rows (list_row (show_colors args) spacing).

(** The [else] branch shared by [create_command] and [update_command]:
    render the validation errors of the response, or the one line
    [failed]. *)
Definition report_failure (name failed : string) (r : response) : IO unit :=
  res ← response_json r;
  message ← lift (Py.get res "message" (PStr ""));
  invalid ← lift (Py.contains "Validation Failed" message);
  errors ← (if invalid : bool
            then (found ← lift (Py.get res "errors" (PList []));
                  entries ← lift (Py.iter found);
                  lift (mapR (parse_validation_error name) entries))
            else mret []);
  let errors := if Nat.eqb (length errors) 0 then errors ++ [failed] else errors in
  print (PyStr.join newline errors).

Definition create_command (args : create_args) : IO unit :=
  token ← get_access_token;
  let name := PyStr.join " " (create_name args) in
  let payload : gmap string pyval :=
    <["name" := PStr name]> (<["color" := PStr (create_color args)]> ∅) in
  let url := github_url +:+ "/repos/" +:+ create_repo args +:+ "/labels" in
  r ← requests_send (Request POST url (access_params token) (Some payload));
  if (status_code r =? 201)%Z
  then print "✅  Label successfully created"
  else report_failure name "❌  Failed to create label." r.

Definition delete_command (args : delete_args) : IO unit :=
  let name := PyStr.join " " (delete_name args) in
  let question := "⛔  Are you sure you want to delete '" +:+ name +:+ "'?" in
  let prompt := " [y/N] " in
  proceed ← (if force args then mret true else confirm_io (question +:+ prompt));
  if negb proceed then mret tt else
  token ← get_access_token;
  let url := github_url +:+ "/repos/" +:+ delete_repo args +:+ "/labels/" +:+ name in
  r ← requests_send (Request DELETE url (access_params token) None);
  if (status_code r =? 204)%Z
  then print "🗑  Label successfully removed"
  else if (status_code r =? 404)%Z
  then print ("🚫  The label '" +:+ name +:+ "' doesn't exist in "
              +:+ delete_repo args +:+ ".")
  else print "❌  Failed to create label.".

(** [{k: v for k, v in vars(args).items() if k in ['color', 'name'] and v}] *)
Definition update_payload (args : update_args) : gmap string pyval :=
  filter (λ kv, (kv.1 = "color" ∨ kv.1 = "name") ∧ truthy kv.2 = true) (vars args).

Definition update_command (args : update_args) : IO unit :=
  _ ← (if negb (any [py_option PStr (update_color args);
                     py_option py_words (update_name args)])
       then (_ ← print "🚫  You must pass either a --name and/or --color";
             sys_exit 1)
       else mret tt);
  let name := PyStr.join " " (label_name args) in
  token ← get_access_token;
  let url := github_url +:+ "/repos/" +:+ update_repo args +:+ "/labels/" +:+ name in
  let payload := update_payload args in
  payload ← match payload !! "name" with
            | Some words =>
                joined ← lift (Py.join " " words);
                mret (<["name" := PStr joined]> payload)
            | None => mret payload
            end;
  r ← requests_send (Request PATCH url (access_params token) (Some payload));
  if (status_code r =? 200)%Z
  then print "✅  Label successfully updated"
  else report_failure name "❌  Failed to update label." r.

(** ** Properties of the handlers *)

(** What a run looks like from outside once [evs] happened before it. *)
Definition after {A : Type} (evs : list event)
    (run : outcome A * world * list event) : outcome A * world * list event :=
  (run.1.1, run.1.2, evs ++ run.2).

(** Equality up to the case of the letters A to Z, as [choice.lower() == t]
    decides it. *)
Definition same_ignoring_case (s t : string) : Prop :=
  PyStr.lower s = PyStr.lower t.

(** The text [delete_command] writes before it reads an answer. *)
Definition delete_prompt (args : delete_args) : string :=
  ("⛔  Are you sure you want to delete '" +:+ PyStr.join " " (delete_name args)
   +:+ "'?") +:+ " [y/N] ".

Definition delete_request (args : delete_args) (token : string) : request :=
  Request DELETE
    (github_url +:+ "/repos/" +:+ delete_repo args +:+ "/labels/"
     +:+ PyStr.join " " (delete_name args))
    (access_params token) None.

(** The token is stored: [get_access_token] returns [token] in [w]. *)
Definition token_stored (w : world) (token : string) : Prop :=
  get_access_token w = (Returned token, w, []).

Lemma token_stored_with_stdin w token lines :
  token_stored w token → token_stored (with_stdin w lines) token.
Proof.
  unfold token_stored, get_access_token, with_stdin; simpl.
  destruct (files w !! token_file) as [content|]; [|discriminate].
  destruct (String.eqb content ""); [discriminate|].
  intros [= <-]. reflexivity.
Qed.

(** What [delete_command] does from the request on. *)
Definition delete_report (args : delete_args) (status : Z) : string :=
  if (status =? 204)%Z then "🗑  Label successfully removed"
  else if (status =? 404)%Z
  then "🚫  The label '" +:+ PyStr.join " " (delete_name args)
       +:+ "' doesn't exist in " +:+ delete_repo args +:+ "."
  else "❌  Failed to create label.".

(** The part of [delete_command] after the loop. *)
Definition delete_send (args : delete_args) : IO unit :=
  token ← get_access_token;
  r ← requests_send (delete_request args token);
  print (delete_report args (status_code r)).

Lemma delete_send_run args w token :
  token_stored w token →
  delete_send args w =
  match http w (delete_request args token) with
  | Ok r => (Returned tt, w, [Http (delete_request args token);
                              Print (delete_report args (status_code r))])
  | Err e => (Raised e, w, [Http (delete_request args token)])
  end.
Proof.
  intros Htok. unfold delete_send, mbind, io_bind. rewrite Htok.
  unfold requests_send. destruct (http w _); reflexivity.
Qed.

Lemma delete_command_forced args w :
  force args = true → delete_command args w = delete_send args w.
Proof.
  intros Hf. unfold delete_command, delete_send, delete_report, delete_request.
  rewrite Hf. unfold mbind, io_bind; simpl.
  destruct (get_access_token w) as [[[token|c|e] w1] ev1]; try reflexivity.
  destruct (requests_send _ w1) as [[[r|c|e] w2] ev2]; try reflexivity.
  destruct (status_code r =? 204)%Z; [reflexivity|].
  destruct (status_code r =? 404)%Z; reflexivity.
Qed.

Lemma delete_command_asked args w :
  force args = false →
  delete_command args w =
  match confirm (delete_prompt args) (stdin w) with
  | (Returned true, rest, ev) => after ev (delete_send args (with_stdin w rest))
  | (Returned false, rest, ev) => (Returned tt, with_stdin w rest, ev ++ [])
  | (Exited c, rest, ev) => (Exited c, with_stdin w rest, ev)
  | (Raised e, rest, ev) => (Raised e, with_stdin w rest, ev)
  end.
Proof.
  intros Hf. unfold delete_command, delete_send, delete_report, delete_request.
  rewrite Hf. unfold mbind, io_bind, confirm_io; simpl.
  fold (delete_prompt args).
  destruct (confirm _ (stdin w)) as [[[[]|c|e] rest] ev]; try reflexivity.
  simpl. unfold after.
  destruct (get_access_token _) as [[[token|c|e] w1] ev1]; try reflexivity.
  destruct (requests_send _ w1) as [[[r|c|e] w2] ev2]; try reflexivity.
  destruct (status_code r =? 204)%Z; [reflexivity|].
  destruct (status_code r =? 404)%Z; reflexivity.
Qed.

Lemma lower_of_same (line t : string) :
  PyStr.lower t = t → same_ignoring_case line t → PyStr.lower line = t.
Proof. unfold same_ignoring_case. congruence. Qed.

Ltac lower_literal H :=
  apply lower_of_same in H; [|reflexivity].

Lemma confirm_declined ask line rest :
  same_ignoring_case line "" ∨ same_ignoring_case line "n"
    ∨ same_ignoring_case line "no" →
  confirm ask (line :: rest) = (Returned false, rest, [Write ask; Input line]).
Proof.
  intros H. simpl.
  destruct H as [H|[H|H]]; lower_literal H; rewrite H; reflexivity.
Qed.

Lemma confirm_accepted ask line rest :
  same_ignoring_case line "y" ∨ same_ignoring_case line "yes" →
  confirm ask (line :: rest) = (Returned true, rest, [Write ask; Input line]).
Proof.
  intros H. simpl.
  destruct H as [H|H]; lower_literal H; rewrite H; reflexivity.
Qed.

Lemma confirm_repeated ask line rest :
  ¬ (same_ignoring_case line "" ∨ same_ignoring_case line "n"
     ∨ same_ignoring_case line "no" ∨ same_ignoring_case line "y"
     ∨ same_ignoring_case line "yes") →
  confirm ask (line :: rest) =
  (let '(o, rest', ev) := confirm ask rest in
   (o, rest', Write ask :: Input line :: ev)).
Proof.
  intros H. unfold same_ignoring_case in H.
  change (PyStr.lower "") with "" in H. change (PyStr.lower "n") with "n" in H.
  change (PyStr.lower "no") with "no" in H. change (PyStr.lower "y") with "y" in H.
  change (PyStr.lower "yes") with "yes" in H. simpl.
  destruct (String.eqb_spec (PyStr.lower line) "") as [E|_];
    [exfalso; apply H; left; exact E|].
  destruct (String.eqb_spec (PyStr.lower line) "n") as [E|_];
    [exfalso; apply H; right; left; exact E|].
  destruct (String.eqb_spec (PyStr.lower line) "no") as [E|_];
    [exfalso; apply H; do 2 right; left; exact E|].
  destruct (String.eqb_spec (PyStr.lower line) "y") as [E|_];
    [exfalso; apply H; do 3 right; left; exact E|].
  destruct (String.eqb_spec (PyStr.lower line) "yes") as [E|_];
    [exfalso; apply H; do 4 right; exact E|].
  reflexivity.
Qed.

(** C1.  With the force flag, [delete_command] sends exactly one request,
    the DELETE, and neither writes a prompt nor reads an answer.  Without
    it, an answer that is empty, "n" or "no" up to case makes the handler
    return with no request sent; an answer that is "y" or "yes" up to case
    makes it send the DELETE request; after any other answer the handler
    behaves as if started anew on the remaining input, so the prompt is
    written again. *)
Theorem delete_command_confirmation (args : delete_args) (w : world) :
  (force args = true → ∀ token, token_stored w token →
     ∃ o ev, delete_command args w
               = (o, w, Http (delete_request args token) :: ev)
             ∧ requests_of ev = [] ∧ prompts_of ev = [])
  ∧ (force args = false → ∀ line rest, stdin w = line :: rest →
     let asked := [Write (delete_prompt args); Input line] in
     (same_ignoring_case line "" ∨ same_ignoring_case line "n"
        ∨ same_ignoring_case line "no" →
      delete_command args w = (Returned tt, with_stdin w rest, asked))
     ∧ (same_ignoring_case line "y" ∨ same_ignoring_case line "yes" →
        ∀ token, token_stored w token →
        ∃ o ev, delete_command args w
                  = (o, with_stdin w rest,
                     asked ++ Http (delete_request args token) :: ev)
                ∧ requests_of ev = [])
     ∧ (¬ (same_ignoring_case line "" ∨ same_ignoring_case line "n"
           ∨ same_ignoring_case line "no" ∨ same_ignoring_case line "y"
           ∨ same_ignoring_case line "yes") →
        delete_command args w
          = after asked (delete_command args (with_stdin w rest)))).
Proof.
  split.
  - intros Hf token Htok.
    rewrite (delete_command_forced _ _ Hf), (delete_send_run _ _ _ Htok).
    destruct (http w _) as [r|e]; eexists _, _; (split; [reflexivity|]);
      split; reflexivity.
  - intros Hf line rest Hin asked. subst asked.
    rewrite (delete_command_asked _ _ Hf), Hin.
    split; [|split].
    + intros H. rewrite (confirm_declined _ _ _ H). reflexivity.
    + intros H token Htok. rewrite (confirm_accepted _ _ _ H).
      rewrite (delete_send_run _ _ token (token_stored_with_stdin _ _ rest Htok)).
      simpl http. unfold after.
      destruct (http w _) as [r|e]; eexists _, _; (split; [reflexivity|]);
        reflexivity.
    + intros H. rewrite (confirm_repeated _ _ _ H).
      rewrite (delete_command_asked _ _ Hf). simpl stdin.
      destruct (confirm _ rest) as [[[[]|c|e] rest'] ev]; reflexivity.
Qed.

Lemma confirm_no_requests ask lines o rest ev :
  confirm ask lines = (o, rest, ev) → requests_of ev = [].
Proof.
  revert o rest ev. induction lines as [|line lines IH]; intros o rest ev; simpl.
  - intros [= <- <- <-]. reflexivity.
  - destruct (_ || _ || _); [intros [= <- <- <-]; reflexivity|].
    destruct (_ || _); [intros [= <- <- <-]; reflexivity|].
    destruct (confirm ask lines) as [[o' rest'] ev'].
    intros [= <- <- <-]. simpl. eapply IH. reflexivity.
Qed.

Lemma requests_of_app ev1 ev2 :
  requests_of (ev1 ++ ev2) = requests_of ev1 ++ requests_of ev2.
Proof. unfold requests_of. apply omap_app. Qed.

(** The invocation gets past the confirmation: the force flag is set, or
    the loop ends on a "yes" after the events [ev], leaving the lines
    [rest] on standard input. *)
Definition delete_confirmed (args : delete_args) (w : world)
    (rest : list string) (ev : list event) : Prop :=
  if force args then rest = stdin w ∧ ev = []
  else confirm (delete_prompt args) (stdin w) = (Returned true, rest, ev).

Lemma delete_command_confirmed args w token rest ev :
  token_stored w token → delete_confirmed args w rest ev →
  delete_command args w =
  match http w (delete_request args token) with
  | Ok r => (Returned tt, with_stdin w rest,
             ev ++ [Http (delete_request args token);
                    Print (delete_report args (status_code r))])
  | Err e => (Raised e, with_stdin w rest,
              ev ++ [Http (delete_request args token)])
  end
  ∧ requests_of ev = [].
Proof.
  intros Htok. unfold delete_confirmed.
  destruct (force args) eqn:Hf.
  - intros [-> ->]. rewrite (delete_command_forced _ _ Hf).
    rewrite (delete_send_run _ _ _ Htok). destruct w; simpl.
    split; reflexivity.
  - intros Hc. rewrite (delete_command_asked _ _ Hf), Hc.
    rewrite (delete_send_run _ _ token (token_stored_with_stdin _ _ rest Htok)).
    simpl http. split; [|eapply confirm_no_requests; exact Hc].
    destruct (http w _); reflexivity.
Qed.

(** C4.  When a delete invocation reaches the network call and the service
    answers, the handler sends exactly one request, prints one message
    chosen by the status code alone and returns: the success message for
    204, the message that the label does not exist, naming the label and
    the repository, for 404, and the generic failure message for every
    other status. *)
Theorem delete_command_status (args : delete_args) (w : world) (token : string)
    (rest : list string) (ev : list event) (r : response) :
  token_stored w token →
  delete_confirmed args w rest ev →
  http w (delete_request args token) = Ok r →
  ∃ message,
    delete_command args w
      = (Returned tt, with_stdin w rest,
         ev ++ [Http (delete_request args token); Print message])
    ∧ requests_of (ev ++ [Http (delete_request args token); Print message])
      = [delete_request args token]
    ∧ (status_code r = 204%Z → message = "🗑  Label successfully removed")
    ∧ (status_code r = 404%Z →
       message = "🚫  The label '" +:+ PyStr.join " " (delete_name args)
                 +:+ "' doesn't exist in " +:+ delete_repo args +:+ ".")
    ∧ (status_code r ≠ 204%Z → status_code r ≠ 404%Z →
       message = "❌  Failed to create label.").
Proof.
  intros Htok Hc Hr.
  destruct (delete_command_confirmed _ _ _ _ _ Htok Hc) as [Hrun Hev].
  rewrite Hr in Hrun.
  exists (delete_report args (status_code r)). split; [exact Hrun|].
  split; [rewrite requests_of_app, Hev; reflexivity|].
  unfold delete_report. split; [|split].
  - intros ->. reflexivity.
  - intros ->. reflexivity.
  - intros H1 H2.
    destruct (Z.eqb_spec (status_code r) 204); [contradiction|].
    destruct (Z.eqb_spec (status_code r) 404); [contradiction|]. reflexivity.
Qed.

(** *** Failure reports of [create] and [update] *)

(** The response body is a JSON object whose message, the empty string
    when there is none, is the text [m]. *)
Definition failure_message (r : response) (res : gmap string pyval)
    (m : string) : Prop :=
  body r = Some (PDict res) ∧ default (PStr "") (res !! "message") = PStr m.

(** The object lists the entries [errs] as its errors (none when it has no
    such field), and the formatter turns them into the lines [msgs]. *)
Definition failure_errors (name : string) (res : gmap string pyval)
    (errs : list pyval) (msgs : list string) : Prop :=
  default (PList []) (res !! "errors") = PList errs
  ∧ mapR (parse_validation_error name) errs = Ok msgs.

Lemma report_failure_generic name failed r w res m :
  failure_message r res m →
  PyStr.contains "Validation Failed" m = false →
  report_failure name failed r w = (Returned tt, w, [Print failed]).
Proof.
  intros [Hb Hm] Hc. unfold report_failure, response_json. rewrite Hb.
  unfold mbind, io_bind; simpl. rewrite Hm; simpl. rewrite Hc; simpl.
  reflexivity.
Qed.

Lemma report_failure_validation name failed r w res m errs msgs :
  failure_message r res m →
  PyStr.contains "Validation Failed" m = true →
  failure_errors name res errs msgs →
  report_failure name failed r w =
  (Returned tt, w,
   [Print (PyStr.join newline (match msgs with [] => [failed] | _ => msgs end))]).
Proof.
  intros [Hb Hm] Hc [He Hp]. unfold report_failure, response_json. rewrite Hb.
  unfold mbind, io_bind; simpl. rewrite Hm; simpl. rewrite Hc; simpl.
  rewrite He; simpl. rewrite Hp; simpl.
  destruct msgs; reflexivity.
Qed.

Lemma report_failure_undecodable name failed r w :
  body r = None →
  report_failure name failed r w = (Raised ValueError, w, []).
Proof.
  intros Hb. unfold report_failure, response_json. rewrite Hb. reflexivity.
Qed.

Definition create_request (args : create_args) (token : string) : request :=
  Request POST
    (github_url +:+ "/repos/" +:+ create_repo args +:+ "/labels")
    (access_params token)
    (Some (<["name" := PStr (PyStr.join " " (create_name args))]>
           (<["color" := PStr (create_color args)]> ∅))).

Lemma create_command_run args w token :
  token_stored w token →
  create_command args w =
  match http w (create_request args token) with
  | Ok r =>
      if (status_code r =? 201)%Z
      then (Returned tt, w, [Http (create_request args token);
                             Print "✅  Label successfully created"])
      else after [Http (create_request args token)]
             (report_failure (PyStr.join " " (create_name args))
                "❌  Failed to create label." r w)
  | Err e => (Raised e, w, [Http (create_request args token)])
  end.
Proof.
  intros Htok. unfold create_command, mbind, io_bind. rewrite Htok.
  unfold requests_send. fold (create_request args token).
  destruct (http w _) as [r|e]; [|reflexivity].
  destruct (status_code r =? 201)%Z; [reflexivity|].
  unfold after.
  destruct (report_failure _ _ r w) as [[o w'] ev]. reflexivity.
Qed.

(** C5 (amended).  When the service answers a create request with status
    201, the handler prints the confirmation.  For any other status it
    decodes the body.  When the body is a JSON object whose message is
    text: if the message reports a validation failure and the errors of
    the body are a list the formatter accepts, the entries are printed,
    one formatted message per line; if it reports none, or no entry is
    listed, exactly the one generic failure line is printed.  When the
    body is not JSON, the exception of the decoding leaves the handler and
    nothing is printed. *)
Theorem create_command_report (args : create_args) (w : world) (token : string)
    (r : response) :
  token_stored w token →
  http w (create_request args token) = Ok r →
  let name := PyStr.join " " (create_name args) in
  let sent := Http (create_request args token) in
  (status_code r = 201%Z →
   create_command args w
     = (Returned tt, w, [sent; Print "✅  Label successfully created"]))
  ∧ (status_code r ≠ 201%Z → ∀ res m, failure_message r res m →
     (PyStr.contains "Validation Failed" m = true →
      ∀ errs msgs, failure_errors name res errs msgs → errs ≠ [] →
        length msgs = length errs
        ∧ create_command args w
          = (Returned tt, w, [sent; Print (PyStr.join newline msgs)]))
     ∧ (PyStr.contains "Validation Failed" m = true →
        failure_errors name res [] [] →
        create_command args w
          = (Returned tt, w, [sent; Print "❌  Failed to create label."]))
     ∧ (PyStr.contains "Validation Failed" m = false →
        create_command args w
          = (Returned tt, w, [sent; Print "❌  Failed to create label."])))
  ∧ (status_code r ≠ 201%Z → body r = None →
     create_command args w = (Raised ValueError, w, [sent])
     ∧ printed [sent] = []).
Proof.
  intros Htok Hr name sent. subst name sent.
  rewrite (create_command_run _ _ _ Htok), Hr.
  split; [|split].
  - intros ->. reflexivity.
  - intros Hs res m Hm.
    destruct (Z.eqb_spec (status_code r) 201) as [|_]; [contradiction|].
    split; [|split].
    + intros Hc errs msgs He Hne.
      rewrite (report_failure_validation _ _ _ _ _ _ _ _ Hm Hc He).
      destruct He as [_ Hp].
      assert (Hlen : length msgs = length errs).
      { clear -Hp. revert msgs Hp. induction errs as [|x errs IH]; intros msgs.
        - intros [= <-]. reflexivity.
        - simpl. unfold mbind, result_bind.
          destruct (parse_validation_error _ x); [|discriminate].
          destruct (mapR _ errs) as [ys|]; [|discriminate].
          intros [= <-]. simpl. f_equal. apply IH. reflexivity. }
      split; [exact Hlen|].
      destruct msgs; [destruct errs; [contradiction|discriminate]|reflexivity].
    + intros Hc He.
      rewrite (report_failure_validation _ _ _ _ _ _ _ _ Hm Hc He). reflexivity.
    + intros Hc. rewrite (report_failure_generic _ _ _ _ _ _ Hm Hc). reflexivity.
  - intros Hs Hb.
    destruct (Z.eqb_spec (status_code r) 201) as [|_]; [contradiction|].
    rewrite (report_failure_undecodable _ _ _ _ Hb). split; reflexivity.
Qed.

(** *** The payload of [update] *)

Lemma update_payload_lookup args k v :
  update_payload args !! k = Some v ↔
  (k = "color" ∧ v = py_option PStr (update_color args) ∧ truthy v = true)
  ∨ (k = "name" ∧ v = py_option py_words (update_name args) ∧ truthy v = true).
Proof.
  unfold update_payload. rewrite map_lookup_filter_Some. unfold vars. simpl.
  split.
  - intros [Hl [[->| ->] Ht]].
    + left. simplify_map_eq. auto.
    + right. simplify_map_eq. auto.
  - intros [(-> & -> & Ht)|(-> & -> & Ht)]; simplify_map_eq; auto.
Qed.

Lemma mapR_as_str_words (l : list string) : mapR Py.as_str (PStr <$> l) = Ok l.
Proof.
  induction l as [|x l IH]; [reflexivity|].
  rewrite fmap_cons. cbn [mapR Py.as_str]. unfold mbind at 1, result_bind at 1.
  rewrite IH. reflexivity.
Qed.

Lemma join_words sep (l : list string) :
  Py.join sep (py_words l) = Ok (PyStr.join sep l).
Proof.
  change (Py.join sep (py_words l))
    with (ss ← mapR Py.as_str (PStr <$> l); Ok (PyStr.join sep ss)).
  rewrite mapR_as_str_words. reflexivity.
Qed.

(** The payload as it is sent: the filtered namespace, its name joined. *)
Definition patch_payload (args : update_args) : gmap string pyval :=
  match update_payload args !! "name" with
  | Some _ =>
      <["name" := PStr (PyStr.join " " (default [] (update_name args)))]>
        (update_payload args)
  | None => update_payload args
  end.

Definition update_request (args : update_args) (token : string) : request :=
  Request PATCH
    (github_url +:+ "/repos/" +:+ update_repo args +:+ "/labels/"
     +:+ PyStr.join " " (label_name args))
    (access_params token) (Some (patch_payload args)).



Lemma update_command_run args w token :
  any [py_option PStr (update_color args);
       py_option py_words (update_name args)] = true →
  token_stored w token →
  update_command args w =
  match http w (update_request args token) with
  | Ok r =>
      if (status_code r =? 200)%Z
      then (Returned tt, w, [Http (update_request args token);
                             Print "✅  Label successfully updated"])
      else after [Http (update_request args token)]
             (report_failure (PyStr.join " " (label_name args))
                "❌  Failed to update label." r w)
  | Err e => (Raised e, w, [Http (update_request args token)])
  end.
Proof.
  intros Hany Htok. unfold update_command. rewrite Hany.
  unfold update_request, patch_payload.
  unfold mbind at 1. unfold io_bind at 1. simpl.
  unfold mbind at 1. unfold io_bind at 1. rewrite Htok.
  destruct (update_payload args !! "name") as [words|] eqn:Hn.
  - apply update_payload_lookup in Hn as [(? & _)|(_ & -> & Ht)]; [discriminate|].
    destruct (update_name args) as [l|]; [|discriminate]. simpl.
    rewrite join_words. unfold mbind, io_bind, requests_send; simpl.
    destruct (http w _) as [r|e]; [|reflexivity].
    destruct (status_code r =? 200)%Z; [reflexivity|].
    unfold after. destruct (report_failure _ _ r w) as [[o w'] ev]. reflexivity.
  - unfold mbind, io_bind, requests_send; simpl.
    destruct (http w _) as [r|e]; [|reflexivity].
    destruct (status_code r =? 200)%Z; [reflexivity|].
    unfold after. destruct (report_failure _ _ r w) as [[o w'] ev]. reflexivity.
Qed.

Lemma report_failure_quiet name failed r w o w' ev :
  report_failure name failed r w = (o, w', ev) → w' = w ∧ requests_of ev = [].
Proof.
  unfold report_failure, response_json, mbind, io_bind.
  destruct (body r) as [res|]; simpl; [|intros [= <- <- <-]; auto].
  destruct (Py.get res "message" (PStr "")) as [message|]; simpl;
    [|intros [= <- <- <-]; auto].
  destruct (Py.contains "Validation Failed" message) as [[]|]; simpl;
    [| |intros [= <- <- <-]; auto].
  - destruct (Py.get res "errors" (PList [])) as [found|]; simpl;
      [|intros [= <- <- <-]; auto].
    destruct (Py.iter found) as [entries|]; simpl; [|intros [= <- <- <-]; auto].
    destruct (mapR _ entries) as [errors|]; simpl; intros [= <- <- <-]; auto.
  - intros [= <- <- <-]; auto.
Qed.

(** An option of [update] carries a value that is not empty. *)
Definition color_given (args : update_args) : Prop :=
  ∃ c, update_color args = Some c ∧ c ≠ "".
Definition name_given (args : update_args) : Prop :=
  ∃ words, update_name args = Some words ∧ words ≠ [].

Lemma truthy_color args :
  truthy (py_option PStr (update_color args)) = true ↔ color_given args.
Proof.
  unfold color_given. destruct (update_color args) as [c|]; simpl.
  - destruct (String.eqb_spec c ""); simpl; split.
    + discriminate.
    + intros (c' & [= <-] & Hne). contradiction.
    + intros _. eauto.
    + reflexivity.
  - split; [discriminate|]. intros (c & [=] & _).
Qed.

Lemma truthy_name args :
  truthy (py_option py_words (update_name args)) = true ↔ name_given args.
Proof.
  unfold name_given. destruct (update_name args) as [[|x l]|]; simpl.
  - split; [discriminate|]. intros (ws & [= <-] & Hne). contradiction.
  - split; [|reflexivity]. intros _. eexists. split; [reflexivity|discriminate].
  - split; [discriminate|]. intros (c & [=] & _).
Qed.

Lemma any_given args :
  any [py_option PStr (update_color args);
       py_option py_words (update_name args)] = true
  ↔ color_given args ∨ name_given args.
Proof.
  unfold any. cbn [existsb]. rewrite orb_false_r, orb_true_iff.
  rewrite truthy_color, truthy_name. reflexivity.
Qed.








(** C10.  When a delete invocation reaches the network call and the
    service answers with a status that is neither 204 nor 404, the message
    printed is "Failed to create label.": the very line [create_command]
    prints when the service rejects a creation without reporting a
    validation failure. *)
Theorem delete_command_failure_text (args : delete_args) (w : world)
    (token : string) (rest : list string) (ev : list event) (r : response) :
  token_stored w token →
  delete_confirmed args w rest ev →
  http w (delete_request args token) = Ok r →
  status_code r ≠ 204%Z → status_code r ≠ 404%Z →
  delete_command args w
    = (Returned tt, with_stdin w rest,
       ev ++ [Http (delete_request args token);
              Print "❌  Failed to create label."])
  ∧ ∀ (cargs : create_args) (cw : world) (ctoken : string) (cr : response) res m,
      token_stored cw ctoken →
      http cw (create_request cargs ctoken) = Ok cr →
      status_code cr ≠ 201%Z →
      failure_message cr res m →
      PyStr.contains "Validation Failed" m = false →
      printed (create_command cargs cw).2 = ["❌  Failed to create label."].
Proof.
  intros Htok Hc Hr H204 H404. split.
  - destruct (delete_command_confirmed _ _ _ _ _ Htok Hc) as [Hrun _].
    rewrite Hrun, Hr. unfold delete_report.
    destruct (Z.eqb_spec (status_code r) 204); [contradiction|].
    destruct (Z.eqb_spec (status_code r) 404); [contradiction|]. reflexivity.
  - intros cargs cw ctoken cr res m Hct Hcr Hs Hm Hv.
    rewrite (create_command_run _ _ _ Hct), Hcr.
    destruct (Z.eqb_spec (status_code cr) 201); [contradiction|].
    rewrite (report_failure_generic _ _ _ _ _ _ Hm Hv). reflexivity.
Qed.

(** *** The list *)

Definition list_request (args : list_args) (token : string) : request :=
  Request GET (github_url +:+ "/repos/" +:+ list_repo args +:+ "/labels")
    (access_params token) None.

Lemma list_command_run args w token :
  token_stored w token →
  list_command args w =
  match http w (list_request args token) with
  | Ok r =>
      after [Http (list_request args token)]
        ((res ← response_json r;
          n ← lift (Py.len res);
          _ ← (if Nat.eqb n 0
               then (_ ← print "❗  No labels found"; sys_exit 0)
               else mret tt);
          spacing ← lift (spacing_of res);
          rows ← lift (Py.iter res);
          for_each rows (list_row (show_colors args) spacing)) w)
  | Err e => (Raised e, w, [Http (list_request args token)])
  end.
Proof.
  intros Htok. unfold list_command.
  unfold mbind at 1. unfold io_bind at 1. rewrite Htok.
  fold (list_request args token).
  unfold mbind at 1. unfold io_bind at 1. unfold requests_send.
  destruct (http w _) as [r|e]; [|reflexivity].
  unfold after.
  destruct (mbind _ (response_json r) w) as [[o w'] ev]. reflexivity.
Qed.

(** C7.  When the response of a list invocation holds no label, the handler
    prints the "No labels found" message, and nothing else, and leaves by
    [sys.exit(0)]. *)
Theorem list_command_empty (args : list_args) (w : world) (token : string)
    (r : response) :
  token_stored w token →
  http w (list_request args token) = Ok r →
  body r = Some (PList []) →
  list_command args w
    = (Exited 0%Z, w,
       [Http (list_request args token); Print "❗  No labels found"])
  ∧ printed (list_command args w).2 = ["❗  No labels found"].
Proof.
  intros Htok Hr Hb.
  assert (Hrun : list_command args w
                 = (Exited 0%Z, w, [Http (list_request args token);
                                    Print "❗  No labels found"])).
  { rewrite (list_command_run _ _ _ Htok), Hr.
    unfold response_json. rewrite Hb. reflexivity. }
  rewrite Hrun. split; reflexivity.
Qed.

(** The name and the colour of a row that is a label object. *)
Definition row_label (row : pyval) : option (string * string) :=
  match row with
  | PDict d =>
      match d !! "name", d !! "color" with
      | Some (PStr n), Some (PStr c) => Some (n, c)
      | _, _ => None
      end
  | _ => None
  end.

Definition labels_of (rows : list pyval) : list (string * string) :=
  omap row_label rows.
Definition names_of (rows : list pyval) : list string := (labels_of rows).*1.

(** The text of the line for the label of name [n] and colour [c], its name
    centred to [width]. *)
Definition row_text (show : bool) (width : nat) (l : string * string)
  : result string :=
  code ← from_hex l.2;
  text ← text_color l.2;
  Ok (bg code +:+ fg text +:+ " " +:+ PyStr.center l.1 width +:+ " "
      +:+ attr 0 +:+ " " +:+ (if show then "[#" +:+ l.2 +:+ "]" else "")).

Lemma row_label_name row l :
  row_label row = Some l → Py.getitem row "name" = Ok (PStr l.1).
Proof.
  destruct row as [| | | |?|d]; try discriminate. simpl.
  destruct (d !! "name") as [[| | |n| |]|]; try discriminate.
  destruct (d !! "color") as [[| | |c| |]|]; try discriminate.
  intros [= <-]. reflexivity.
Qed.

Lemma mapR_names rows :
  Forall (λ row, is_Some (row_label row)) rows →
  mapR (λ x, Py.getitem x "name") rows = Ok (PStr <$> names_of rows).
Proof.
  induction 1 as [|row rows [l Hl] _ IH]; [reflexivity|].
  cbn [mapR]. rewrite (row_label_name _ _ Hl), IH.
  unfold names_of, labels_of. cbn [omap list_omap]. fold (omap row_label rows).
  rewrite Hl. reflexivity.
Qed.

Lemma max_list_append (l1 l2 : list nat) :
  max_list (l1 ++ l2) = max_list l1 `max` max_list l2.
Proof. induction l1 as [|n l1 IH]; cbn; [reflexivity|]. rewrite IH. lia. Qed.

Lemma max_by_len_names best names :
  ∃ longest,
    Py.max_by_len (PStr best) (PyStr.len best) (PStr <$> names) = Ok (PStr longest)
    ∧ PyStr.len longest = PyStr.len best `max` max_list (PyStr.len <$> names).
Proof.
  revert best. induction names as [|n names IH]; intros best.
  - exists best. split; [reflexivity|]. simpl. lia.
  - rewrite !fmap_cons. cbn [Py.max_by_len Py.len].
    unfold mbind at 1, result_bind at 1.
    change (max_list (PyStr.len n :: (PyStr.len <$> names)))
      with (PyStr.len n `max` max_list (PyStr.len <$> names)).
    destruct (Nat.ltb_spec (PyStr.len best) (PyStr.len n)).
    + destruct (IH n) as (longest & -> & Hlen). exists longest.
      split; [reflexivity|]. lia.
    + destruct (IH best) as (longest & -> & Hlen). exists longest.
      split; [reflexivity|]. lia.
Qed.

Lemma spacing_of_rows rows :
  rows ≠ [] → Forall (λ row, is_Some (row_label row)) rows →
  spacing_of (PList rows) = Ok (max_list (PyStr.len <$> names_of rows)).
Proof.
  intros Hne Hwf. unfold spacing_of. cbn [Py.iter].
  unfold mbind at 1, result_bind at 1. rewrite (mapR_names _ Hwf).
  unfold mbind at 1, result_bind at 1.
  destruct (names_of rows) as [|n names] eqn:Hn.
  - exfalso. destruct Hwf as [|row rows [l Hl] _]; [contradiction|].
    unfold names_of, labels_of in Hn. cbn [omap list_omap] in Hn.
    rewrite Hl in Hn. discriminate.
  - rewrite fmap_cons. cbn [Py.max_len Py.len].
    unfold mbind at 2, result_bind at 2.
    destruct (max_by_len_names n names) as (longest & -> & Hlen).
    cbn. f_equal. exact Hlen.
Qed.

Lemma list_row_run show width row l w :
  row_label row = Some l →
  list_row show width row w =
  match row_text show width l with
  | Ok line => (Returned tt, w, [Print line])
  | Err e => (Raised e, w, [])
  end.
Proof.
  destruct row as [| | | |?|d]; try discriminate. simpl.
  destruct (d !! "name") as [[| | |n| |]|] eqn:Hn; try discriminate.
  destruct (d !! "color") as [[| | |c| |]|] eqn:Hc; try discriminate.
  intros [= <-]. unfold list_row, row_text, Py.getitem. rewrite Hn, Hc.
  unfold mbind, io_bind, result_bind; simpl.
  destruct (from_hex c); [|reflexivity]. simpl.
  destruct (text_color c); reflexivity.
Qed.

Lemma for_each_rows show width rows lines w :
  Forall (λ row, is_Some (row_label row)) rows →
  mapR (row_text show width) (labels_of rows) = Ok lines →
  for_each rows (list_row show width) w = (Returned tt, w, Print <$> lines).
Proof.
  intros Hwf. revert lines.
  induction Hwf as [|row rows [l Hl] _ IH]; intros lines.
  - intros [= <-]. reflexivity.
  - unfold labels_of. cbn [omap list_omap]. fold (omap row_label rows).
    rewrite Hl. cbn [mapR]. unfold mbind at 1, result_bind at 1.
    destruct (row_text show width l) as [line|] eqn:Hline; [|discriminate].
    unfold mbind at 1, result_bind at 1.
    destruct (mapR _ (omap row_label rows)) as [lines'|] eqn:Hrest; [|discriminate].
    intros [= <-]. cbn [for_each]. unfold mbind, io_bind.
    rewrite (list_row_run _ _ _ _ _ Hl), Hline, (IH _ Hrest). reflexivity.
Qed.

(** C3.  For a response that is a non-empty list of labels, the width
    [list_command] centres every printed name to is the greatest length of
    a name in the response.  Hence the width is the same for every
    permutation of the response, and when one name is strictly longer than
    all the others the width is the length of that name. *)
Theorem list_command_width (args : list_args) (w : world) (token : string)
    (r : response) (rows : list pyval) :
  token_stored w token →
  http w (list_request args token) = Ok r →
  body r = Some (PList rows) →
  rows ≠ [] →
  Forall (λ row, is_Some (row_label row)) rows →
  let width := max_list (PyStr.len <$> names_of rows) in
  spacing_of (PList rows) = Ok width
  ∧ (∀ lines,
       mapR (row_text (show_colors args) width) (labels_of rows) = Ok lines →
       list_command args w
         = (Returned tt, w, Http (list_request args token) :: (Print <$> lines)))
  ∧ (∀ rows', rows' ≡ₚ rows → spacing_of (PList rows') = Ok width)
  ∧ (∀ shorter name others,
       names_of rows = shorter ++ name :: others →
       Forall (λ n, PyStr.len n < PyStr.len name) (shorter ++ others) →
       width = PyStr.len name).
Proof.
  intros Htok Hr Hb Hne Hwf width.
  split; [exact (spacing_of_rows _ Hne Hwf)|].
  split; [|split].
  - intros lines Hlines.
    rewrite (list_command_run _ _ _ Htok), Hr.
    unfold response_json. rewrite Hb.
    unfold mbind at 1. unfold io_bind at 1. cbn [mret io_ret].
    cbn [Py.len lift]. unfold mbind at 1. unfold io_bind at 1. cbn [mret io_ret].
    destruct rows as [|row rows]; [contradiction|]. cbn [length Nat.eqb].
    unfold mbind at 1. unfold io_bind at 1. cbn [mret io_ret].
    rewrite (spacing_of_rows _ Hne Hwf). cbn [lift].
    unfold mbind at 1. unfold io_bind at 1. cbn [mret io_ret Py.iter lift].
    unfold mbind at 1. unfold io_bind at 1. cbn [mret io_ret].
    rewrite (for_each_rows _ _ _ _ _ Hwf Hlines). reflexivity.
  - intros rows' Hperm.
    assert (Hne' : rows' ≠ []).
    { intros ->. apply Permutation_nil_l in Hperm. congruence. }
    assert (Hwf' : Forall (λ row, is_Some (row_label row)) rows').
    { rewrite Hperm. exact Hwf. }
    rewrite (spacing_of_rows _ Hne' Hwf'). f_equal. subst width.
    unfold names_of, labels_of. rewrite Hperm. reflexivity.
  - intros shorter name others Hnames Hshort. subst width. rewrite Hnames.
    rewrite fmap_app, fmap_cons.
    assert (Hmax : ∀ l, Forall (λ n, PyStr.len n < PyStr.len name) l →
                        max_list (PyStr.len <$> l) ≤ PyStr.len name).
    { induction 1 as [|n l Hn _ IH]; cbn; unfold id in *; lia. }
    apply Forall_app in Hshort as [H1 H2].
    apply Hmax in H1, H2.
    rewrite max_list_append.
    change (max_list (PyStr.len name :: (PyStr.len <$> others)))
      with (PyStr.len name `max` max_list (PyStr.len <$> others)).
    lia.
Qed.

(** *** The token file *)

Lemma rstrip_app_newline s : PyStr.rstrip (s +:+ newline) = PyStr.rstrip s.
Proof.
  induction s as [|a s IH]; [reflexivity|].
  change (String a s +:+ newline) with (String a (s +:+ newline)).
  cbn [PyStr.rstrip]. rewrite IH. reflexivity.
Qed.

Lemma lstrip_app_newline s :
  PyStr.lstrip (s +:+ newline) =
  match PyStr.lstrip s with
  | EmptyString => EmptyString
  | t => t +:+ newline
  end.
Proof.
  induction s as [|a s IH]; [reflexivity|].
  change (String a s +:+ newline) with (String a (s +:+ newline)).
  cbn [PyStr.lstrip].
  destruct (PyStr.is_space a); [exact IH|reflexivity].
Qed.

Lemma strip_app_newline s : PyStr.strip (s +:+ newline) = PyStr.strip s.
Proof.
  unfold PyStr.strip. rewrite lstrip_app_newline.
  destruct (PyStr.lstrip s) as [|a t]; [reflexivity|].
  apply rstrip_app_newline.
Qed.

(** C8 (amended).  When the token file can be written, [auth_command]
    replaces its content, whatever it was, by the token followed by one
    newline, and a load that follows returns the token trimmed: exactly the
    token saved when the token has no leading or trailing white space. *)
Theorem auth_command_roundtrip (args : auth_args) (w : world) :
  token_file ∉ unwritable w →
  ∃ w', auth_command args w
          = (Returned tt, w', [Print "🚀  Authentication stored!"])
        ∧ files w' !! token_file = Some (auth_token args +:+ newline)
        ∧ get_access_token w'
          = (Returned (PyStr.strip (auth_token args)), w', [])
        ∧ (PyStr.strip (auth_token args) = auth_token args →
           token_stored w' (auth_token args)).
Proof.
  intros Hw. unfold auth_command, write_line, mbind, io_bind.
  rewrite bool_decide_eq_false_2 by exact Hw.
  eexists. split; [reflexivity|]. cbn [files].
  assert (Hload : ∀ w', files w' !! token_file = Some (auth_token args +:+ newline) →
            get_access_token w' = (Returned (PyStr.strip (auth_token args)), w', [])).
  { intros w' Hf. unfold get_access_token. rewrite Hf.
    destruct (String.eqb_spec (auth_token args +:+ newline) "") as [E|_].
    - destruct (auth_token args); discriminate.
    - rewrite strip_app_newline. reflexivity. }
  split; [apply lookup_insert_eq|].
  split; [apply Hload; apply lookup_insert_eq|].
  intros Hs. unfold token_stored. rewrite Hload by apply lookup_insert_eq.
  rewrite Hs. reflexivity.
Qed.

(** *** Exceptions *)

(** C9 (amended).  With a token stored: an exception raised while the
    request is sent leaves each of the handlers [list_command],
    [create_command], [update_command] and [delete_command], and so does
    the exception raised when the body of a response to be decoded is not
    JSON; no handler catches it.  A failure that the service reports by the
    status of its response is rendered as one printed message, after which
    the handler returns: by [delete_command] for every response, by
    [create_command] and [update_command] when the body is a JSON object
    whose message is text and either reports no validation failure or
    comes with a list of errors that the formatter accepts. *)
Theorem handlers_propagate_exceptions (w : world) (token : string) :
  token_stored w token →
  (∀ args e, http w (list_request args token) = Err e →
     list_command args w = (Raised e, w, [Http (list_request args token)]))
  ∧ (∀ args e, http w (create_request args token) = Err e →
     create_command args w = (Raised e, w, [Http (create_request args token)]))
  ∧ (∀ args e, color_given args ∨ name_given args →
     http w (update_request args token) = Err e →
     update_command args w = (Raised e, w, [Http (update_request args token)]))
  ∧ (∀ args rest ev e, delete_confirmed args w rest ev →
     http w (delete_request args token) = Err e →
     delete_command args w
       = (Raised e, with_stdin w rest, ev ++ [Http (delete_request args token)]))
  ∧ (∀ args r, http w (list_request args token) = Ok r → body r = None →
     list_command args w
       = (Raised ValueError, w, [Http (list_request args token)]))
  ∧ (∀ args r, http w (create_request args token) = Ok r →
     status_code r ≠ 201%Z → body r = None →
     create_command args w
       = (Raised ValueError, w, [Http (create_request args token)]))
  ∧ (∀ args r, color_given args ∨ name_given args →
     http w (update_request args token) = Ok r →
     status_code r ≠ 200%Z → body r = None →
     update_command args w
       = (Raised ValueError, w, [Http (update_request args token)]))
  ∧ (∀ args rest ev r, delete_confirmed args w rest ev →
     http w (delete_request args token) = Ok r →
     ∃ message,
       delete_command args w
         = (Returned tt, with_stdin w rest,
            ev ++ [Http (delete_request args token); Print message]))
  ∧ (∀ args r res m errs msgs, http w (create_request args token) = Ok r →
     status_code r ≠ 201%Z → failure_message r res m →
     PyStr.contains "Validation Failed" m = false
     ∨ failure_errors (PyStr.join " " (create_name args)) res errs msgs →
     ∃ message,
       create_command args w
         = (Returned tt, w, [Http (create_request args token); Print message]))
  ∧ (∀ args r res m errs msgs, color_given args ∨ name_given args →
     http w (update_request args token) = Ok r →
     status_code r ≠ 200%Z → failure_message r res m →
     PyStr.contains "Validation Failed" m = false
     ∨ failure_errors (PyStr.join " " (label_name args)) res errs msgs →
     ∃ message,
       update_command args w
         = (Returned tt, w, [Http (update_request args token); Print message])).
Proof.
  intros Htok. repeat split.
  - intros args e He. rewrite (list_command_run _ _ _ Htok), He. reflexivity.
  - intros args e He. rewrite (create_command_run _ _ _ Htok), He. reflexivity.
  - intros args e Hg He. apply any_given in Hg.
    rewrite (update_command_run _ _ _ Hg Htok), He. reflexivity.
  - intros args rest ev e Hc He.
    destruct (delete_command_confirmed _ _ _ _ _ Htok Hc) as [-> _].
    rewrite He. reflexivity.
  - intros args r Hr Hb. rewrite (list_command_run _ _ _ Htok), Hr.
    unfold response_json. rewrite Hb. reflexivity.
  - intros args r Hr Hs Hb. rewrite (create_command_run _ _ _ Htok), Hr.
    destruct (Z.eqb_spec (status_code r) 201); [contradiction|].
    rewrite (report_failure_undecodable _ _ _ _ Hb). reflexivity.
  - intros args r Hg Hr Hs Hb. apply any_given in Hg.
    rewrite (update_command_run _ _ _ Hg Htok), Hr.
    destruct (Z.eqb_spec (status_code r) 200); [contradiction|].
    rewrite (report_failure_undecodable _ _ _ _ Hb). reflexivity.
  - intros args rest ev r Hc Hr.
    destruct (delete_command_confirmed _ _ _ _ _ Htok Hc) as [-> _].
    rewrite Hr. eexists. reflexivity.
  - intros args r res m errs msgs Hr Hs Hm Hcase.
    rewrite (create_command_run _ _ _ Htok), Hr.
    destruct (Z.eqb_spec (status_code r) 201); [contradiction|].
    destruct (PyStr.contains "Validation Failed" m) eqn:Hv.
    + destruct Hcase as [?|He]; [discriminate|].
      rewrite (report_failure_validation _ _ _ _ _ _ _ _ Hm Hv He).
      eexists. reflexivity.
    + rewrite (report_failure_generic _ _ _ _ _ _ Hm Hv). eexists. reflexivity.
  - intros args r res m errs msgs Hg Hr Hs Hm Hcase. apply any_given in Hg.
    rewrite (update_command_run _ _ _ Hg Htok), Hr.
    destruct (Z.eqb_spec (status_code r) 200); [contradiction|].
    destruct (PyStr.contains "Validation Failed" m) eqn:Hv.
    + destruct Hcase as [?|He]; [discriminate|].
      rewrite (report_failure_validation _ _ _ _ _ _ _ _ Hm Hv He).
      eexists. reflexivity.
    + rewrite (report_failure_generic _ _ _ _ _ _ Hm Hv). eexists. reflexivity.
Qed.

(** ** Further properties of the handlers *)

(** *** What a handler touches *)

(** A computation that leaves the environment as it is and sends no
    request, and one that leaves it as it is and sends at most one. *)
Definition quiet {A : Type} (m : IO A) : Prop :=
  ∀ w o w' ev, m w = (o, w', ev) → w' = w ∧ requests_of ev = [].
Definition sends_once {A : Type} (m : IO A) : Prop :=
  ∀ w o w' ev, m w = (o, w', ev) → w' = w ∧ length (requests_of ev) ≤ 1.

Lemma quiet_sends_once {A : Type} (m : IO A) : quiet m → sends_once m.
Proof.
  intros Hm w o w' ev Hrun. apply Hm in Hrun as [-> ->]. split; [reflexivity|].
  simpl. lia.
Qed.

Lemma quiet_ret {A : Type} (a : A) : quiet (mret a).
Proof. intros w o w' ev [= <- <- <-]. split; reflexivity. Qed.

Lemma quiet_raise {A : Type} (e : exn) : quiet (@raise A e).
Proof. intros w o w' ev [= <- <- <-]. split; reflexivity. Qed.

Lemma quiet_exit {A : Type} (code : Z) : quiet (@sys_exit A code).
Proof. intros w o w' ev [= <- <- <-]. split; reflexivity. Qed.

Lemma quiet_lift {A : Type} (r : result A) : quiet (lift r).
Proof. destruct r; [apply quiet_ret|apply quiet_raise]. Qed.

Lemma quiet_print s : quiet (print s).
Proof. intros w o w' ev [= <- <- <-]. split; reflexivity. Qed.

Lemma quiet_json r : quiet (response_json r).
Proof. unfold response_json. destruct (body r); [apply quiet_ret|apply quiet_raise]. Qed.

Lemma quiet_token : quiet get_access_token.
Proof.
  intros w o w' ev. unfold get_access_token.
  destruct (files w !! token_file) as [content|];
    [destruct (String.eqb content "")|]; intros [= <- <- <-]; split; reflexivity.
Qed.

Lemma quiet_bind {A B : Type} (m : IO A) (f : A → IO B) :
  quiet m → (∀ a, quiet (f a)) → quiet (m ≫= f).
Proof.
  intros Hm Hf w o w' ev. unfold mbind, io_bind.
  destruct (m w) as [[[a|c|e] w1] ev1] eqn:Em; apply Hm in Em as [-> Hev1].
  - destruct (f a w) as [[o2 w2] ev2] eqn:Ef. apply Hf in Ef as [-> Hev2].
    intros [= <- <- <-]. split; [reflexivity|].
    rewrite requests_of_app, Hev1, Hev2. reflexivity.
  - intros [= <- <- <-]. split; [reflexivity|exact Hev1].
  - intros [= <- <- <-]. split; [reflexivity|exact Hev1].
Qed.

Lemma sends_once_bind_l {A B : Type} (m : IO A) (f : A → IO B) :
  quiet m → (∀ a, sends_once (f a)) → sends_once (m ≫= f).
Proof.
  intros Hm Hf w o w' ev. unfold mbind, io_bind.
  destruct (m w) as [[[a|c|e] w1] ev1] eqn:Em; apply Hm in Em as [-> Hev1].
  - destruct (f a w) as [[o2 w2] ev2] eqn:Ef. apply Hf in Ef as [-> Hev2].
    intros [= <- <- <-]. split; [reflexivity|].
    rewrite requests_of_app, Hev1. exact Hev2.
  - intros [= <- <- <-]. split; [reflexivity|]. rewrite Hev1. simpl. lia.
  - intros [= <- <- <-]. split; [reflexivity|]. rewrite Hev1. simpl. lia.
Qed.

Lemma sends_once_bind_r {A B : Type} (m : IO A) (f : A → IO B) :
  sends_once m → (∀ a, quiet (f a)) → sends_once (m ≫= f).
Proof.
  intros Hm Hf w o w' ev. unfold mbind, io_bind.
  destruct (m w) as [[[a|c|e] w1] ev1] eqn:Em; apply Hm in Em as [-> Hev1].
  - destruct (f a w) as [[o2 w2] ev2] eqn:Ef. apply Hf in Ef as [-> Hev2].
    intros [= <- <- <-]. split; [reflexivity|].
    rewrite requests_of_app, Hev2, app_nil_r. exact Hev1.
  - intros [= <- <- <-]. split; [reflexivity|exact Hev1].
  - intros [= <- <- <-]. split; [reflexivity|exact Hev1].
Qed.

Lemma sends_once_send rq : sends_once (requests_send rq).
Proof.
  intros w o w' ev. unfold requests_send.
  destruct (http w rq); intros [= <- <- <-]; split; try reflexivity; simpl; lia.
Qed.

Lemma quiet_for_each {A : Type} (l : list A) (f : A → IO unit) :
  (∀ x, quiet (f x)) → quiet (for_each l f).
Proof.
  intros Hf. induction l as [|x l IH]; [apply quiet_ret|].
  cbn [for_each]. apply quiet_bind; [apply Hf|intros _; exact IH].
Qed.

Ltac quiet_step :=
  first
    [ apply quiet_ret | apply quiet_raise | apply quiet_exit | apply quiet_lift
    | apply quiet_print | apply quiet_json | apply quiet_token
    | apply quiet_for_each; intros
    | apply quiet_bind; [|intros]
    | match goal with
      | |- quiet (if ?b then _ else _) => destruct b
      | |- quiet (match ?x with _ => _ end) => destruct x
      end
    | progress cbv zeta ].

Lemma quiet_list_row show width row : quiet (list_row show width row).
Proof. unfold list_row. repeat quiet_step. Qed.

Lemma quiet_report_failure name failed r : quiet (report_failure name failed r).
Proof. unfold report_failure. repeat quiet_step. Qed.

Lemma sends_once_list args : sends_once (list_command args).
Proof.
  unfold list_command. apply sends_once_bind_l; [apply quiet_token|intros token].
  cbv zeta. apply sends_once_bind_r; [apply sends_once_send|intros r].
  repeat quiet_step.
Qed.

Lemma sends_once_create args : sends_once (create_command args).
Proof.
  unfold create_command. apply sends_once_bind_l; [apply quiet_token|intros token].
  cbv zeta. apply sends_once_bind_r; [apply sends_once_send|intros r].
  destruct (status_code r =? 201)%Z; [apply quiet_print|apply quiet_report_failure].
Qed.

Lemma sends_once_update args : sends_once (update_command args).
Proof.
  unfold update_command. apply sends_once_bind_l; [repeat quiet_step|intros _].
  cbv zeta. apply sends_once_bind_l; [apply quiet_token|intros token].
  apply sends_once_bind_l; [repeat quiet_step|intros payload].
  apply sends_once_bind_r; [apply sends_once_send|intros r].
  destruct (status_code r =? 200)%Z; [apply quiet_print|apply quiet_report_failure].
Qed.

Lemma sends_once_delete_send args : sends_once (delete_send args).
Proof.
  unfold delete_send. apply sends_once_bind_l; [apply quiet_token|intros token].
  apply sends_once_bind_r; [apply sends_once_send|intros r]. apply quiet_print.
Qed.

(** The loop reads a prefix of the lines and leaves the rest. *)
Lemma confirm_suffix ask lines o rest ev :
  confirm ask lines = (o, rest, ev) → ∃ used, lines = used ++ rest.
Proof.
  revert o rest ev. induction lines as [|line lines IH]; intros o rest ev; simpl.
  - intros [= <- <- <-]. exists []. reflexivity.
  - destruct (_ || _ || _); [intros [= <- <- <-]; exists [line]; reflexivity|].
    destruct (_ || _); [intros [= <- <- <-]; exists [line]; reflexivity|].
    destruct (confirm ask lines) as [[o' rest'] ev'] eqn:Hc.
    intros [= <- <- <-]. destruct (IH _ _ _ eq_refl) as [used ->].
    exists (line :: used). reflexivity.
Qed.

Lemma delete_command_frame args w :
  ∃ used rest,
    stdin w = used ++ rest
    ∧ (delete_command args w).1.2 = with_stdin w rest
    ∧ length (requests_of (delete_command args w).2) ≤ 1.
Proof.
  destruct (force args) eqn:Hf.
  - rewrite (delete_command_forced _ _ Hf).
    destruct (delete_send args w) as [[o w'] ev] eqn:Hrun.
    apply sends_once_delete_send in Hrun as [-> Hev].
    exists [], (stdin w). split; [reflexivity|]. split; [destruct w; reflexivity|].
    exact Hev.
  - rewrite (delete_command_asked _ _ Hf).
    destruct (confirm (delete_prompt args) (stdin w)) as [[o rest] ev] eqn:Hc.
    destruct (confirm_suffix _ _ _ _ _ Hc) as [used Hused].
    pose proof (confirm_no_requests _ _ _ _ _ Hc) as Hev.
    exists used, rest. split; [exact Hused|].
    destruct o as [[]|c|e]; simpl; rewrite ?app_nil_r, ?Hev; try (split; [reflexivity|simpl; lia]).
    destruct (delete_send args (with_stdin w rest)) as [[o2 w2] ev2] eqn:Hrun.
    apply sends_once_delete_send in Hrun as [-> Hev2].
    unfold after; simpl. split; [reflexivity|].
    rewrite requests_of_app, Hev. exact Hev2.
Qed.

(** X1.  Whatever the environment holds (a token or none, any answer of
    the service, any input), a handler sends at most one request, and
    [auth_command] sends none. *)
Theorem handlers_send_at_most_one_request (w : world) :
  (∀ args, requests_of (auth_command args w).2 = [])
  ∧ (∀ args, length (requests_of (list_command args w).2) ≤ 1)
  ∧ (∀ args, length (requests_of (create_command args w).2) ≤ 1)
  ∧ (∀ args, length (requests_of (delete_command args w).2) ≤ 1)
  ∧ (∀ args, length (requests_of (update_command args w).2) ≤ 1).
Proof.
  split; [|split; [|split; [|split]]].
  - intros args. unfold auth_command, write_line, mbind, io_bind.
    destruct (bool_decide _); reflexivity.
  - intros args. destruct (list_command args w) as [[o w'] ev] eqn:Hrun.
    apply sends_once_list in Hrun as [_ H]. exact H.
  - intros args. destruct (create_command args w) as [[o w'] ev] eqn:Hrun.
    apply sends_once_create in Hrun as [_ H]. exact H.
  - intros args. destruct (delete_command_frame args w) as (_ & _ & _ & _ & H).
    exact H.
  - intros args. destruct (update_command args w) as [[o w'] ev] eqn:Hrun.
    apply sends_once_update in Hrun as [_ H]. exact H.
Qed.

(** X2.  Only [auth_command] writes a file, and only the token file; only
    [delete_command] reads standard input, and it leaves a suffix of it.
    The other handlers leave the environment exactly as they found it. *)
Theorem handlers_keep_environment (w : world) :
  (∀ args, (list_command args w).1.2 = w)
  ∧ (∀ args, (create_command args w).1.2 = w)
  ∧ (∀ args, (update_command args w).1.2 = w)
  ∧ (∀ args, ∃ used rest,
       stdin w = used ++ rest ∧ (delete_command args w).1.2 = with_stdin w rest)
  ∧ (∀ args,
       stdin (auth_command args w).1.2 = stdin w
       ∧ ∀ path, path ≠ token_file →
           files (auth_command args w).1.2 !! path = files w !! path).
Proof.
  split; [|split; [|split; [|split]]].
  - intros args. destruct (list_command args w) as [[o w'] ev] eqn:Hrun.
    apply sends_once_list in Hrun as [H _]. exact H.
  - intros args. destruct (create_command args w) as [[o w'] ev] eqn:Hrun.
    apply sends_once_create in Hrun as [H _]. exact H.
  - intros args. destruct (update_command args w) as [[o w'] ev] eqn:Hrun.
    apply sends_once_update in Hrun as [H _]. exact H.
  - intros args. destruct (delete_command_frame args w) as (used & rest & H1 & H2 & _).
    exists used, rest. auto.
  - intros args. unfold auth_command, write_line, mbind, io_bind.
    destruct (bool_decide _); simpl; (split; [reflexivity|]); intros path Hp;
      [reflexivity|].
    apply lookup_insert_ne. congruence.
Qed.


(** *** The confirmation of [delete] *)

(** The two tests of the loop on an answer. *)
Definition declines (line : string) : bool :=
  String.eqb (PyStr.lower line) "" || String.eqb (PyStr.lower line) "n"
  || String.eqb (PyStr.lower line) "no".
Definition accepts (line : string) : bool :=
  String.eqb (PyStr.lower line) "y" || String.eqb (PyStr.lower line) "yes".

(** An answer the loop does not understand. *)
Definition ignored (line : string) : Prop :=
  declines line = false ∧ accepts line = false.

(** The events of asking once for each of [lines]. *)
Definition asked (ask : string) (lines : list string) : list event :=
  flat_map (λ line, [Write ask; Input line]) lines.

Lemma requests_of_asked ask lines : requests_of (asked ask lines) = [].
Proof. induction lines as [|line lines IH]; [reflexivity|exact IH]. Qed.

Lemma accepts_not_declines line : accepts line = true → declines line = false.
Proof.
  unfold accepts, declines. intros H. apply orb_true_iff in H as [H|H];
    apply String.eqb_eq in H; rewrite H; reflexivity.
Qed.

Lemma confirm_skip ask junk lines :
  Forall ignored junk →
  confirm ask (junk ++ lines) =
  (let '(o, rest, ev) := confirm ask lines in (o, rest, asked ask junk ++ ev)).
Proof.
  induction 1 as [|line junk [Hd Ha] _ IH].
  - cbn [app]. destruct (confirm ask lines) as [[o rest] ev]. reflexivity.
  - cbn [app confirm]. fold (declines line) (accepts line). rewrite Hd, Ha, IH.
    destruct (confirm ask lines) as [[o rest] ev]. reflexivity.
Qed.

Lemma confirm_answer ask line rest :
  confirm ask (line :: rest) =
  if declines line then (Returned false, rest, [Write ask; Input line])
  else if accepts line then (Returned true, rest, [Write ask; Input line])
  else (let '(o, rest', ev) := confirm ask rest in
        (o, rest', Write ask :: Input line :: ev)).
Proof. reflexivity. Qed.

(** X3.  Without the force flag, [delete_command] asks once per line it
    reads and skips every answer it does not understand.  When the first
    answer it understands declines, it returns with no request sent and
    leaves the lines after that answer unread; when it accepts, the handler
    goes on to the request with those lines left. *)
Theorem delete_command_after_ignored_answers (args : delete_args) (w : world)
    (junk : list string) (line : string) (rest : list string) :
  force args = false →
  stdin w = junk ++ line :: rest →
  Forall ignored junk →
  (declines line = true →
   delete_command args w
     = (Returned tt, with_stdin w rest,
        asked (delete_prompt args) (junk ++ [line])))
  ∧ (accepts line = true →
     delete_command args w
       = after (asked (delete_prompt args) (junk ++ [line]))
           (delete_send args (with_stdin w rest))).
Proof.
  intros Hf Hin Hjunk.
  rewrite (delete_command_asked _ _ Hf), Hin, (confirm_skip _ _ _ Hjunk).
  rewrite confirm_answer. unfold asked. rewrite flat_map_app. cbn [flat_map].
  rewrite app_nil_r. split.
  - intros ->. rewrite app_nil_r. reflexivity.
  - intros Ha. rewrite (accepts_not_declines _ Ha), Ha. reflexivity.
Qed.

(** X4.  Without the force flag, when standard input ends before an answer
    is understood, [delete_command] has asked once per line and once more,
    and [EOFError] leaves the handler; no request is sent. *)
Theorem delete_command_end_of_input (args : delete_args) (w : world) :
  force args = false →
  Forall ignored (stdin w) →
  delete_command args w
    = (Raised EOFError, with_stdin w [],
       asked (delete_prompt args) (stdin w) ++ [Write (delete_prompt args)])
  ∧ requests_of (delete_command args w).2 = [].
Proof.
  intros Hf Hjunk.
  assert (Hrun : delete_command args w
            = (Raised EOFError, with_stdin w [],
               asked (delete_prompt args) (stdin w) ++ [Write (delete_prompt args)])).
  { rewrite (delete_command_asked _ _ Hf).
    rewrite <- (app_nil_r (stdin w)) at 1.
    rewrite (confirm_skip _ _ _ Hjunk). reflexivity. }
  split; [exact Hrun|]. rewrite Hrun. cbn [snd].
  rewrite requests_of_app, requests_of_asked. reflexivity.
Qed.


Lemma confirm_accepted_inv ask lines rest ev :
  confirm ask lines = (Returned true, rest, ev) →
  ∃ junk line, lines = junk ++ line :: rest ∧ Forall ignored junk
               ∧ accepts line = true.
Proof.
  revert rest ev. induction lines as [|line lines IH]; intros rest ev.
  - discriminate.
  - rewrite confirm_answer. destruct (declines line) eqn:Hd; [discriminate|].
    destruct (accepts line) eqn:Ha.
    + intros [= <- <-]. exists [], line. auto.
    + destruct (confirm ask lines) as [[o rest'] ev'] eqn:Hc.
      intros [= -> -> <-]. destruct (IH _ _ eq_refl) as (junk & l & -> & Hj & Hl).
      exists (line :: junk), l. split; [reflexivity|]. split; [|exact Hl].
      constructor; [split; assumption|exact Hj].
Qed.

(** X5.  Without the force flag, [delete_command] never sends a request
    unless an answer accepted it: if a request was sent, standard input
    began with answers the loop ignored followed by one that says yes. *)
Theorem delete_command_request_needs_consent (args : delete_args) (w : world) :
  force args = false →
  requests_of (delete_command args w).2 ≠ [] →
  ∃ junk line rest,
    stdin w = junk ++ line :: rest ∧ Forall ignored junk ∧ accepts line = true.
Proof.
  intros Hf. rewrite (delete_command_asked _ _ Hf).
  destruct (confirm (delete_prompt args) (stdin w)) as [[o rest] ev] eqn:Hc.
  pose proof (confirm_no_requests _ _ _ _ _ Hc) as Hev.
  destruct o as [[]|c|e]; cbn [snd]; rewrite ?app_nil_r, ?Hev;
    try (intros H; contradiction).
  intros _. destruct (confirm_accepted_inv _ _ _ _ Hc) as (junk & line & H).
  exists junk, line, rest. exact H.
Qed.


(** *** Failure reports of [update] and malformed bodies *)

(** X7.  When the service answers an update with a status other than 200
    and a JSON object, [update_command] renders it as [create_command]
    does, with the formatter given the name the label had before the
    update: the formatted validation errors one per line, or the one line
    "Failed to update label." when no validation failure or no entry is
    reported. *)
Theorem update_command_report (args : update_args) (w : world) (token : string)
    (r : response) (res : gmap string pyval) (m : string) :
  color_given args ∨ name_given args →
  token_stored w token →
  http w (update_request args token) = Ok r →
  status_code r ≠ 200%Z →
  failure_message r res m →
  let name := PyStr.join " " (label_name args) in
  let sent := Http (update_request args token) in
  (PyStr.contains "Validation Failed" m = true →
   ∀ errs msgs, failure_errors name res errs msgs → errs ≠ [] →
     update_command args w
       = (Returned tt, w, [sent; Print (PyStr.join newline msgs)]))
  ∧ (PyStr.contains "Validation Failed" m = true →
     failure_errors name res [] [] →
     update_command args w
       = (Returned tt, w, [sent; Print "❌  Failed to update label."]))
  ∧ (PyStr.contains "Validation Failed" m = false →
     update_command args w
       = (Returned tt, w, [sent; Print "❌  Failed to update label."])).
Proof.
  intros Hg Htok Hr Hs Hm name sent. subst name sent. apply any_given in Hg.
  rewrite (update_command_run _ _ _ Hg Htok), Hr.
  destruct (Z.eqb_spec (status_code r) 200) as [|_]; [contradiction|].
  split; [|split].
  - intros Hc errs msgs He Hne.
    rewrite (report_failure_validation _ _ _ _ _ _ _ _ Hm Hc He).
    destruct msgs; [|reflexivity]. destruct He as [_ Hp].
    destruct errs as [|x errs]; [contradiction|]. exfalso.
    cbn [mapR] in Hp. unfold mbind, result_bind in Hp.
    destruct (parse_validation_error _ x); [|discriminate].
    destruct (mapR _ errs); discriminate.
  - intros Hc He. rewrite (report_failure_validation _ _ _ _ _ _ _ _ Hm Hc He).
    reflexivity.
  - intros Hc. rewrite (report_failure_generic _ _ _ _ _ _ Hm Hc). reflexivity.
Qed.

(** A value that has no method [get]: anything but a dictionary. *)
Definition not_an_object (v : pyval) : Prop :=
  match v with PDict _ => False | _ => True end.

(** A value [in] cannot search: [None], a boolean or a number. *)
Definition not_searchable (v : pyval) : Prop :=
  match v with PNone | PBool _ | PInt _ => True | _ => False end.

Lemma report_failure_not_object name failed r w v :
  body r = Some v → not_an_object v →
  report_failure name failed r w = (Raised AttributeError, w, []).
Proof.
  intros Hb Hv. unfold report_failure, response_json. rewrite Hb.
  destruct v; try contradiction; reflexivity.
Qed.

Lemma report_failure_odd_message name failed r w res v :
  body r = Some (PDict res) → res !! "message" = Some v → not_searchable v →
  report_failure name failed r w = (Raised TypeError, w, []).
Proof.
  intros Hb Hm Hv. unfold report_failure, response_json. rewrite Hb.
  unfold mbind, io_bind; simpl. rewrite Hm; simpl.
  destruct v; try contradiction; reflexivity.
Qed.

(** X8.  When the service rejects a creation or an update with a body that
    decodes to something other than a JSON object, [AttributeError] leaves
    the handler; when the body is an object whose message is null, a
    boolean or a number, [TypeError] does.  In both cases the request has
    been sent and nothing is printed. *)
Theorem rejected_with_malformed_body (w : world) (token : string) (r : response) :
  token_stored w token →
  (∀ args, http w (create_request args token) = Ok r → status_code r ≠ 201%Z →
     (∀ v, body r = Some v → not_an_object v →
        create_command args w
          = (Raised AttributeError, w, [Http (create_request args token)]))
     ∧ (∀ res v, body r = Some (PDict res) → res !! "message" = Some v →
          not_searchable v →
          create_command args w
            = (Raised TypeError, w, [Http (create_request args token)])))
  ∧ (∀ args, color_given args ∨ name_given args →
     http w (update_request args token) = Ok r → status_code r ≠ 200%Z →
     (∀ v, body r = Some v → not_an_object v →
        update_command args w
          = (Raised AttributeError, w, [Http (update_request args token)]))
     ∧ (∀ res v, body r = Some (PDict res) → res !! "message" = Some v →
          not_searchable v →
          update_command args w
            = (Raised TypeError, w, [Http (update_request args token)]))).
Proof.
  intros Htok. split.
  - intros args Hr Hs. rewrite (create_command_run _ _ _ Htok), Hr.
    destruct (Z.eqb_spec (status_code r) 201) as [|_]; [contradiction|].
    split.
    + intros v Hb Hv. rewrite (report_failure_not_object _ _ _ _ _ Hb Hv).
      reflexivity.
    + intros res v Hb Hm Hv.
      rewrite (report_failure_odd_message _ _ _ _ _ _ Hb Hm Hv). reflexivity.
  - intros args Hg Hr Hs. apply any_given in Hg.
    rewrite (update_command_run _ _ _ Hg Htok), Hr.
    destruct (Z.eqb_spec (status_code r) 200) as [|_]; [contradiction|].
    split.
    + intros v Hb Hv. rewrite (report_failure_not_object _ _ _ _ _ Hb Hv).
      reflexivity.
    + intros res v Hb Hm Hv.
      rewrite (report_failure_odd_message _ _ _ _ _ _ Hb Hm Hv). reflexivity.
Qed.

(** *** The test for a validation failure *)

Lemma prefix_app (needle hay : string) :
  String.prefix needle hay = true ↔ ∃ post, hay = needle +:+ post.
Proof.
  revert hay. induction needle as [|a needle IH]; intros hay.
  - split; [intros _; exists hay; reflexivity|intros _; destruct hay; reflexivity].
  - destruct hay as [|b hay]; simpl.
    + split; [discriminate|]. intros [post H]. discriminate.
    + destruct (Ascii.ascii_dec a b) as [->|Hne].
      * rewrite IH. split; intros [post H]; exists post.
        -- rewrite H. reflexivity.
        -- injection H as H. exact H.
      * split; [discriminate|]. intros [post H]. injection H as H1 H2.
        congruence.
Qed.

Lemma contains_app (needle hay : string) :
  PyStr.contains needle hay = true ↔ ∃ pre post, hay = pre +:+ needle +:+ post.
Proof.
  induction hay as [|b hay IH].
  - cbn [PyStr.contains]. rewrite orb_false_r, prefix_app. split.
    + intros [post H]. exists "", post. exact H.
    + intros (pre & post & H). destruct pre; [exists post; exact H|discriminate].
  - cbn [PyStr.contains]. rewrite orb_true_iff, prefix_app, IH. split.
    + intros [[post H]|(pre & post & H)].
      * exists "", post. exact H.
      * exists (String b pre), post. rewrite H. reflexivity.
    + intros (pre & post & H). destruct pre as [|c pre].
      * left. exists post. exact H.
      * right. injection H as _ H. exists pre, post. exact H.
Qed.

(** X9.  A rejected creation is rendered as a validation failure exactly
    when the text "Validation Failed" occurs somewhere in the message of
    the body, whatever precedes or follows it: then the formatted entries
    are printed, otherwise the generic line is. *)
Theorem create_command_validation_test (args : create_args) (w : world)
    (token : string) (r : response) (res : gmap string pyval) (m : string)
    (errs : list pyval) (msgs : list string) :
  token_stored w token →
  http w (create_request args token) = Ok r →
  status_code r ≠ 201%Z →
  failure_message r res m →
  failure_errors (PyStr.join " " (create_name args)) res errs msgs →
  errs ≠ [] →
  ((∃ pre post, m = pre +:+ "Validation Failed" +:+ post) →
   create_command args w
     = (Returned tt, w, [Http (create_request args token);
                         Print (PyStr.join newline msgs)]))
  ∧ (¬ (∃ pre post, m = pre +:+ "Validation Failed" +:+ post) →
     create_command args w
       = (Returned tt, w, [Http (create_request args token);
                           Print "❌  Failed to create label."])).
Proof.
  intros Htok Hr Hs Hm He Hne.
  rewrite (create_command_run _ _ _ Htok), Hr.
  destruct (Z.eqb_spec (status_code r) 201) as [|_]; [contradiction|].
  split.
  - intros Hsub. apply contains_app in Hsub.
    rewrite (report_failure_validation _ _ _ _ _ _ _ _ Hm Hsub He).
    destruct msgs; [|reflexivity]. destruct He as [_ Hp].
    destruct errs as [|x errs]; [contradiction|]. exfalso.
    cbn [mapR] in Hp. unfold mbind, result_bind in Hp.
    destruct (parse_validation_error _ x); [|discriminate].
    destruct (mapR _ errs); discriminate.
  - intros Hsub.
    destruct (PyStr.contains "Validation Failed" m) eqn:Hc.
    + exfalso. apply Hsub, contains_app. exact Hc.
    + rewrite (report_failure_generic _ _ _ _ _ _ Hm Hc). reflexivity.
Qed.


(** *** Responses [list] does not expect *)

Lemma list_command_body args w token r v :
  token_stored w token →
  http w (list_request args token) = Ok r →
  body r = Some v →
  list_command args w =
  after [Http (list_request args token)]
    ((n ← lift (Py.len v);
      _ ← (if Nat.eqb n 0
           then (_ ← print "❗  No labels found"; sys_exit 0)
           else mret tt);
      spacing ← lift (spacing_of v);
      rows ← lift (Py.iter v);
      for_each rows (list_row (show_colors args) spacing)) w).
Proof.
  intros Htok Hr Hb. rewrite (list_command_run _ _ _ Htok), Hr.
  unfold response_json. rewrite Hb. unfold mbind at 1. unfold io_bind at 1.
  cbn [mret io_ret]. unfold after.
  destruct (mbind _ (lift (Py.len v)) w) as [[o w'] ev]. reflexivity.
Qed.

Lemma mapR_first_error {A B : Type} (f : A → result B) x l e :
  f x = Err e → mapR f (x :: l) = Err e.
Proof. intros H. cbn [mapR]. rewrite H. reflexivity. Qed.

(** X10.  [list_command] does not look at the status of the response.
    When the body is a JSON object, as the service sends with an error, the
    handler prints "No labels found" and exits with code 0 if the object is
    empty, and otherwise [TypeError] leaves it with nothing printed; when
    the body is null, a boolean or a number, [TypeError] leaves it too. *)
Theorem list_command_not_a_list (args : list_args) (w : world) (token : string)
    (r : response) :
  token_stored w token →
  http w (list_request args token) = Ok r →
  (body r = Some (PDict ∅) →
   list_command args w
     = (Exited 0%Z, w, [Http (list_request args token);
                        Print "❗  No labels found"]))
  ∧ (∀ d, body r = Some (PDict d) → d ≠ ∅ →
     list_command args w
       = (Raised TypeError, w, [Http (list_request args token)]))
  ∧ (∀ v, body r = Some v → not_searchable v →
     list_command args w
       = (Raised TypeError, w, [Http (list_request args token)])).
Proof.
  intros Htok Hr. split; [|split].
  - intros Hb. rewrite (list_command_body _ _ _ _ _ Htok Hr Hb). reflexivity.
  - intros d Hb Hd. rewrite (list_command_body _ _ _ _ _ Htok Hr Hb).
    cbn [Py.len lift]. unfold mbind at 1. unfold io_bind at 1. cbn [mret io_ret].
    assert (Hsize : Nat.eqb (size d) 0 = false).
    { apply Nat.eqb_neq. intros H. apply Hd, map_size_empty_iff. exact H. }
    rewrite Hsize. unfold mbind at 1. unfold io_bind at 1. cbn [mret io_ret].
    assert (Hsp : spacing_of (PDict d) = Err TypeError).
    { unfold spacing_of. cbn [Py.iter]. unfold mbind at 1, result_bind at 1.
      destruct (map_to_list d) as [|[k x] l] eqn:Hl.
      - apply map_to_list_empty_iff in Hl. contradiction.
      - rewrite fmap_cons, fmap_cons.
        rewrite (mapR_first_error _ _ _ TypeError); reflexivity. }
    rewrite Hsp. reflexivity.
  - intros v Hb Hv. rewrite (list_command_body _ _ _ _ _ Htok Hr Hb).
    destruct v; try contradiction; reflexivity.
Qed.

Lemma mapR_app_error {A B : Type} (f : A → result B) pre x post ys e :
  mapR f pre = Ok ys → f x = Err e → mapR f (pre ++ x :: post) = Err e.
Proof.
  revert ys. induction pre as [|y pre IH]; intros ys.
  - intros _ H. apply mapR_first_error. exact H.
  - cbn [app mapR]. unfold mbind at 1 3, result_bind at 1 3.
    destruct (f y); [|discriminate].
    unfold mbind at 1, result_bind at 1.
    destruct (mapR f pre) as [zs|] eqn:Hpre; [|discriminate].
    intros _ Hx. rewrite (IH _ eq_refl Hx). reflexivity.
Qed.

(** X11.  When a row of the response is an object without a name, and the
    rows before it are labels, [KeyError] leaves [list_command] before any
    line is printed: not even the labels that precede the row are listed. *)
Theorem list_command_row_without_name (args : list_args) (w : world)
    (token : string) (r : response) (pre post : list pyval)
    (d : gmap string pyval) :
  token_stored w token →
  http w (list_request args token) = Ok r →
  body r = Some (PList (pre ++ PDict d :: post)) →
  Forall (λ row, is_Some (row_label row)) pre →
  d !! "name" = None →
  list_command args w = (Raised KeyError, w, [Http (list_request args token)]).
Proof.
  intros Htok Hr Hb Hpre Hd. rewrite (list_command_body _ _ _ _ _ Htok Hr Hb).
  cbn [Py.len lift]. unfold mbind at 1. unfold io_bind at 1. cbn [mret io_ret].
  rewrite length_app. cbn [length]. rewrite Nat.add_succ_r. cbn [Nat.eqb].
  unfold mbind at 1. unfold io_bind at 1. cbn [mret io_ret].
  assert (Hsp : spacing_of (PList (pre ++ PDict d :: post)) = Err KeyError).
  { unfold spacing_of. cbn [Py.iter]. unfold mbind at 1, result_bind at 1.
    rewrite (mapR_app_error _ _ _ _ _ KeyError (mapR_names _ Hpre)); [reflexivity|].
    cbn [Py.getitem]. rewrite Hd. reflexivity. }
  rewrite Hsp. reflexivity.
Qed.

(** *** The column of names *)

Lemma len_app (s t : string) : PyStr.len (s +:+ t) = PyStr.len s + PyStr.len t.
Proof.
  induction s as [|a s IH]; [reflexivity|].
  change (String a s +:+ t) with (String a (s +:+ t)). cbn [PyStr.len].
  destruct (PyStr.is_continuation a); rewrite IH; reflexivity.
Qed.

Lemma len_spaces (n : nat) : PyStr.len (PyStr.spaces n) = n.
Proof. induction n as [|n IH]; [reflexivity|]. cbn. rewrite IH. reflexivity. Qed.

Lemma len_center (s : string) (width : nat) :
  PyStr.len (PyStr.center s width) = width `max` PyStr.len s.
Proof.
  unfold PyStr.center. rewrite !len_app, !len_spaces.
  set (marg := width - PyStr.len s).
  pose proof (Nat.div2_odd marg) as Hdiv.
  destruct (Nat.odd marg); cbn [Nat.b2n andb] in *;
    [destruct (Nat.odd width)|]; lia.
Qed.

(** X12.  In the list of a non-empty response of labels, the centred name
    of every label takes exactly the common width: the names form a column
    of equal length, and no name is cut. *)
Theorem list_command_column (rows : list pyval) (width : nat) :
  rows ≠ [] →
  Forall (λ row, is_Some (row_label row)) rows →
  spacing_of (PList rows) = Ok width →
  ∀ name, name ∈ names_of rows →
    PyStr.len (PyStr.center name width) = width
    ∧ ∃ left right,
        PyStr.center name width
          = PyStr.spaces left +:+ name +:+ PyStr.spaces right.
Proof.
  intros Hne Hwf Hsp name Hin.
  rewrite (spacing_of_rows _ Hne Hwf) in Hsp. injection Hsp as <-.
  split; [|unfold PyStr.center; eauto].
  rewrite len_center.
  assert (PyStr.len name ≤ max_list (PyStr.len <$> names_of rows)); [|lia].
  apply max_list_elem_of_le, list_elem_of_fmap. exists name. auto.
Qed.


(** *** The token across invocations *)

Lemma auth_command_stores args w :
  token_file ∉ unwritable w →
  token_stored (auth_command args w).1.2 (PyStr.strip (auth_token args)).
Proof.
  intros Hw. unfold auth_command, write_line, mbind, io_bind.
  rewrite bool_decide_eq_false_2 by exact Hw. cbn [fst snd print].
  unfold token_stored, get_access_token. cbn [files].
  rewrite lookup_insert_eq.
  destruct (String.eqb_spec (auth_token args +:+ newline) "") as [E|_].
  - destruct (auth_token args); discriminate.
  - rewrite strip_app_newline. reflexivity.
Qed.

(** X13.  Saving a token replaces the one saved before: after two
    [auth_command]s the environment is the one the second alone would
    leave, and when the file can be written it holds the second token and
    its newline only. *)
Theorem auth_command_last_wins (first second : auth_args) (w : world) :
  (auth_command second (auth_command first w).1.2).1.2
    = (auth_command second w).1.2
  ∧ (token_file ∉ unwritable w →
     files (auth_command second (auth_command first w).1.2).1.2 !! token_file
       = Some (auth_token second +:+ newline)).
Proof.
  unfold auth_command, write_line, mbind, io_bind.
  destruct (bool_decide (token_file ∈ unwritable w)) eqn:Hw; cbn [fst snd print].
  - rewrite Hw. cbn [fst snd]. split; [reflexivity|].
    intros H. apply bool_decide_eq_true_1 in Hw. contradiction.
  - cbn [unwritable]. rewrite Hw. cbn [fst snd stdin files unwritable http].
    rewrite insert_insert_eq. split; [reflexivity|].
    intros _. apply lookup_insert_eq.
Qed.

(** X14.  The handlers that follow an [auth_command] authenticate with
    the token it saved, trimmed: the request of a list, of a creation and
    of a forced deletion carries it as the [access_token] parameter. *)
Theorem auth_command_then_request (args : auth_args) (w : world) :
  token_file ∉ unwritable w →
  let w' := (auth_command args w).1.2 in
  let token := PyStr.strip (auth_token args) in
  (∀ largs, ∃ o ev,
     list_command largs w' = (o, w', Http (list_request largs token) :: ev))
  ∧ (∀ cargs, ∃ o ev,
       create_command cargs w' = (o, w', Http (create_request cargs token) :: ev))
  ∧ (∀ dargs, force dargs = true → ∃ o ev,
       delete_command dargs w' = (o, w', Http (delete_request dargs token) :: ev))
  ∧ (∀ largs,
       rq_params (list_request largs token) !! "access_token" = Some token).
Proof.
  intros Hw w' token. pose proof (auth_command_stores args w Hw) as Htok.
  fold w' token in Htok. split; [|split; [|split]].
  - intros largs. rewrite (list_command_run _ _ _ Htok).
    destruct (http w' _) as [r|e]; [|eexists _, _; reflexivity].
    unfold after.
    match goal with |- context [mbind ?f ?m w'] =>
      destruct (mbind f m w') as [[o w2] ev] eqn:Hrun end.
    assert (Hq : quiet (res ← response_json r;
                        n ← lift (Py.len res);
                        _ ← (if Nat.eqb n 0
                             then (_ ← print "❗  No labels found"; sys_exit 0)
                             else mret tt);
                        spacing ← lift (spacing_of res);
                        rows ← lift (Py.iter res);
                        for_each rows (list_row (show_colors largs) spacing))).
    { repeat quiet_step. }
    apply Hq in Hrun as [-> _]. eexists _, _. reflexivity.
  - intros cargs. rewrite (create_command_run _ _ _ Htok).
    destruct (http w' _) as [r|e]; [|eexists _, _; reflexivity].
    destruct (status_code r =? 201)%Z; [eexists _, _; reflexivity|].
    destruct (report_failure _ _ r w') as [[o w2] ev] eqn:Hrun.
    apply report_failure_quiet in Hrun as [-> _]. eexists _, _. reflexivity.
  - intros dargs Hf.
    rewrite (delete_command_forced _ _ Hf), (delete_send_run _ _ _ Htok).
    destruct (http w' _) as [r|e]; eexists _, _; reflexivity.
  - intros largs. apply lookup_singleton_eq.
Qed.

(** *** The request of [create] *)

(** X15.  With a token stored, [create_command] sends a POST to the labels
    of the repository whose payload has the two fields [name], the words
    of the name joined by single spaces, and [color], and no other field,
    whatever the values are (empty ones included); it sends nothing else. *)
Theorem create_command_request (args : create_args) (w : world) (token : string) :
  token_stored w token →
  ∃ payload o ev,
    create_command args w
      = (o, w, Http (Request POST
                       (github_url +:+ "/repos/" +:+ create_repo args +:+ "/labels")
                       (access_params token) (Some payload)) :: ev)
    ∧ requests_of ev = []
    ∧ payload !! "name" = Some (PStr (PyStr.join " " (create_name args)))
    ∧ payload !! "color" = Some (PStr (create_color args))
    ∧ ∀ k, k ≠ "name" → k ≠ "color" → payload !! k = None.
Proof.
  intros Htok.
  exists (<["name" := PStr (PyStr.join " " (create_name args))]>
          (<["color" := PStr (create_color args)]> ∅)).
  fold (create_request args token).
  assert (Hrun : ∃ o ev, create_command args w
                         = (o, w, Http (create_request args token) :: ev)
                         ∧ requests_of ev = []).
  { rewrite (create_command_run _ _ _ Htok).
    destruct (http w _) as [r|e]; [|eexists _, _; split; reflexivity].
    destruct (status_code r =? 201)%Z; [eexists _, _; split; reflexivity|].
    destruct (report_failure _ _ r w) as [[o w2] ev] eqn:Hrep.
    apply report_failure_quiet in Hrep as [-> Hev].
    exists o, ev. split; [reflexivity|exact Hev]. }
  destruct Hrun as (o & ev & Hrun & Hev). exists o, ev.
  split; [exact Hrun|]. split; [exact Hev|].
  split; [apply lookup_insert_eq|].
  split; [rewrite lookup_insert_ne by discriminate; apply lookup_insert_eq|].
  intros k H1 H2. rewrite !lookup_insert_ne by congruence. apply lookup_empty.
Qed.


(** *** A row the colour functions reject *)

Lemma labels_of_app rows1 rows2 :
  labels_of (rows1 ++ rows2) = labels_of rows1 ++ labels_of rows2.
Proof. unfold labels_of. apply omap_app. Qed.

Lemma for_each_rows_error show width pre row post l lines e w :
  Forall (λ row, is_Some (row_label row)) pre →
  mapR (row_text show width) (labels_of pre) = Ok lines →
  row_label row = Some l →
  row_text show width l = Err e →
  for_each (pre ++ row :: post) (list_row show width) w
    = (Raised e, w, Print <$> lines).
Proof.
  intros Hwf. revert lines.
  induction Hwf as [|first pre [l1 Hl1] _ IH]; intros lines.
  - intros [= <-] Hl He. cbn [app for_each]. unfold mbind, io_bind.
    rewrite (list_row_run _ _ _ _ _ Hl), He. reflexivity.
  - unfold labels_of. cbn [omap list_omap]. fold (omap row_label pre).
    rewrite Hl1. cbn [mapR]. unfold mbind at 1, result_bind at 1.
    destruct (row_text show width l1) as [line|] eqn:Hline; [|discriminate].
    unfold mbind at 1, result_bind at 1.
    destruct (mapR _ (omap row_label pre)) as [lines'|] eqn:Hrest; [|discriminate].
    intros [= <-] Hl He. cbn [app for_each]. unfold mbind, io_bind.
    rewrite (list_row_run _ _ _ _ _ Hl1), Hline, (IH _ Hrest Hl He). reflexivity.
Qed.

(** X16.  When the rows of the response are labels and the colour
    functions raise on the colour of one of them, [list_command] has
    printed the lines of the labels before it, each centred to the width
    of the whole response, and the exception leaves the handler: the list
    is cut short rather than skipped. *)
Theorem list_command_rejected_colour (args : list_args) (w : world)
    (token : string) (r : response) (pre post : list pyval) (row : pyval)
    (l : string * string) (lines : list string) (e : exn) :
  token_stored w token →
  http w (list_request args token) = Ok r →
  body r = Some (PList (pre ++ row :: post)) →
  Forall (λ row, is_Some (row_label row)) (pre ++ row :: post) →
  let width := max_list (PyStr.len <$> names_of (pre ++ row :: post)) in
  mapR (row_text (show_colors args) width) (labels_of pre) = Ok lines →
  row_label row = Some l →
  row_text (show_colors args) width l = Err e →
  list_command args w
    = (Raised e, w, Http (list_request args token) :: (Print <$> lines)).
Proof.
  intros Htok Hr Hb Hwf width Hlines Hl He.
  assert (Hne : pre ++ row :: post ≠ []) by (destruct pre; discriminate).
  rewrite (list_command_body _ _ _ _ _ Htok Hr Hb).
  cbn [Py.len lift]. unfold mbind at 1. unfold io_bind at 1. cbn [mret io_ret].
  rewrite length_app. cbn [length]. rewrite Nat.add_succ_r. cbn [Nat.eqb].
  unfold mbind at 1. unfold io_bind at 1. cbn [mret io_ret].
  rewrite (spacing_of_rows _ Hne Hwf). cbn [lift].
  unfold mbind at 1. unfold io_bind at 1. cbn [mret io_ret Py.iter lift].
  unfold mbind at 1. unfold io_bind at 1. cbn [mret io_ret].
  apply Forall_app in Hwf as [Hpre _].
  rewrite (for_each_rows_error _ _ _ _ _ _ _ _ _ Hpre Hlines Hl He). reflexivity.
Qed.


End Handlers.

(** ** The spellings of an answer *)

Lemma lower_char_n (a : ascii) :
  PyStr.lower_char a = "n"%char ↔ a = "n"%char ∨ a = "N"%char.
Proof.
  split; [|intros [-> | ->]; reflexivity].
  destruct a as [[] [] [] [] [] [] [] []]; vm_compute; intros H;
    first [discriminate H | left; reflexivity | right; reflexivity].
Qed.

Lemma lower_char_y (a : ascii) :
  PyStr.lower_char a = "y"%char ↔ a = "y"%char ∨ a = "Y"%char.
Proof.
  split; [|intros [-> | ->]; reflexivity].
  destruct a as [[] [] [] [] [] [] [] []]; vm_compute; intros H;
    first [discriminate H | left; reflexivity | right; reflexivity].
Qed.

Lemma same_ignoring_case_empty (line : string) :
  same_ignoring_case line "" ↔ line = "".
Proof.
  unfold same_ignoring_case. destruct line; simpl; split; congruence.
Qed.

Lemma same_ignoring_case_n (line : string) :
  same_ignoring_case line "n" ↔ line = "n" ∨ line = "N".
Proof.
  unfold same_ignoring_case. change (PyStr.lower "n") with "n". split.
  - destruct line as [|a [|b line]]; simpl; try discriminate.
    intros [= H]. apply lower_char_n in H as [-> | ->]; auto.
  - intros [-> | ->]; reflexivity.
Qed.

Lemma same_ignoring_case_y (line : string) :
  same_ignoring_case line "y" ↔ line = "y" ∨ line = "Y".
Proof.
  unfold same_ignoring_case. change (PyStr.lower "y") with "y". split.
  - destruct line as [|a [|b line]]; simpl; try discriminate.
    intros [= H]. apply lower_char_y in H as [-> | ->]; auto.
  - intros [-> | ->]; reflexivity.
Qed.

Ltac lower_char_cases a :=
  destruct a as [[] [] [] [] [] [] [] []]; vm_compute; intros H;
  first [discriminate H | left; reflexivity | right; reflexivity].

Lemma lower_char_o (a : ascii) :
  PyStr.lower_char a = "o"%char → a = "o"%char ∨ a = "O"%char.
Proof. lower_char_cases a. Qed.

Lemma lower_char_e (a : ascii) :
  PyStr.lower_char a = "e"%char → a = "e"%char ∨ a = "E"%char.
Proof. lower_char_cases a. Qed.

Lemma lower_char_s (a : ascii) :
  PyStr.lower_char a = "s"%char → a = "s"%char ∨ a = "S"%char.
Proof. lower_char_cases a. Qed.

Lemma lower_nil (line : string) : PyStr.lower line = "" → line = "".
Proof. destruct line; [reflexivity|discriminate]. Qed.

Lemma lower_cons (line : string) (b : ascii) (t : string) :
  PyStr.lower line = String b t →
  ∃ a line', line = String a line' ∧ PyStr.lower_char a = b
             ∧ PyStr.lower line' = t.
Proof.
  destruct line as [|a line']; [discriminate|]. simpl. intros [= Ha Ht]. eauto.
Qed.

(** X6.  The answers [delete_command] takes for a no are exactly the empty
    line and the spellings of "n" and "no" in either case of each letter;
    those it takes for a yes are exactly the spellings of "y" and "yes". *)
Theorem answers_understood (line : string) :
  (declines line = true ↔ line ∈ [""; "n"; "N"; "no"; "nO"; "No"; "NO"])
  ∧ (accepts line = true ↔
     line ∈ ["y"; "Y"; "yes"; "yeS"; "yEs"; "yES"; "Yes"; "YeS"; "YEs"; "YES"]).
Proof.
  split; split.
  - unfold declines. rewrite !orb_true_iff, !String.eqb_eq.
    intros [[H|H]|H].
    + apply lower_nil in H as ->. set_solver.
    + apply lower_cons in H as (a & l1 & -> & Ha & H).
      apply lower_nil in H as ->.
      apply lower_char_n in Ha as [-> | ->]; set_solver.
    + apply lower_cons in H as (a & l1 & -> & Ha & H).
      apply lower_cons in H as (b & l2 & -> & Hb & H).
      apply lower_nil in H as ->.
      apply lower_char_n in Ha as [-> | ->];
        apply lower_char_o in Hb as [-> | ->]; set_solver.
  - rewrite !elem_of_cons, elem_of_nil.
    intros H. repeat destruct H as [-> |H]; try reflexivity. contradiction.
  - unfold accepts. rewrite !orb_true_iff, !String.eqb_eq.
    intros [H|H].
    + apply lower_cons in H as (a & l1 & -> & Ha & H).
      apply lower_nil in H as ->.
      apply lower_char_y in Ha as [-> | ->]; set_solver.
    + apply lower_cons in H as (a & l1 & -> & Ha & H).
      apply lower_cons in H as (b & l2 & -> & Hb & H).
      apply lower_cons in H as (c & l3 & -> & Hc & H).
      apply lower_nil in H as ->.
      apply lower_char_y in Ha as [-> | ->];
        apply lower_char_e in Hb as [-> | ->];
        apply lower_char_s in Hc as [-> | ->]; set_solver.
  - rewrite !elem_of_cons, elem_of_nil.
    intros H. repeat destruct H as [-> |H]; try reflexivity. contradiction.
Qed.


(** ** The handlers on concrete invocations

    An instance of what [core.py] imports, to run the handlers: a base URL,
    a path of the token file, a formatter of validation errors and colour
    functions. *)

Definition sample_url : string := "https://api.github.com".
Definition sample_token_file : string := "/home/dev/.glm_token".
Definition sample_formatter (name : string) (error : pyval) : result string :=
  code ← Py.getitem error "code";
  code ← Py.as_str code;
  Ok ("label " +:+ name +:+ ": " +:+ code).
Definition sample_text_color (hex : string) : result string := Ok "white".
Definition sample_from_hex (hex : string) : result Z := Ok 9%Z.
Definition sample_bg (code : Z) : string := "<bg>".
Definition sample_fg (name : string) : string := "<fg>".
Definition sample_attr (code : Z) : string := "<reset>".

(** A process with the token [s3cret] stored, the given lines on standard
    input, and a service that gives every request the same answer. *)
Definition sample_world (lines : list string) (answer : result response) : world :=
  World lines {[ sample_token_file := "s3cret" +:+ newline ]} ∅ (λ _, answer).

Definition sample_label (name color : string) : pyval :=
  PDict (<["name" := PStr name]> (<["color" := PStr color]> ∅)).

Lemma sample_token_stored lines answer :
  token_stored sample_token_file (sample_world lines answer) "s3cret".
Proof. reflexivity. Qed.

Definition forced_delete : delete_args := DeleteArgs "octo/repo" ["help"; "wanted"] true.
Definition asked_delete : delete_args := DeleteArgs "octo/repo" ["help"; "wanted"] false.

(** C1 at work: a forced delete sends its one request without a prompt; an
    answer "NO" returns with no request; an answer "Yes" sends the DELETE. *)
Lemma delete_command_confirmation_witness :
  (∃ o ev,
     delete_command sample_url sample_token_file forced_delete
       (sample_world [] (Ok (Response 204 None)))
     = (o, sample_world [] (Ok (Response 204 None)),
        Http (delete_request sample_url forced_delete "s3cret") :: ev)
     ∧ requests_of ev = [] ∧ prompts_of ev = [])
  ∧ delete_command sample_url sample_token_file asked_delete
      (sample_world ["NO"] (Ok (Response 204 None)))
    = (Returned tt, sample_world [] (Ok (Response 204 None)),
       [Write (delete_prompt asked_delete); Input "NO"])
  ∧ (∃ o ev,
       delete_command sample_url sample_token_file asked_delete
         (sample_world ["Yes"] (Ok (Response 204 None)))
       = (o, sample_world [] (Ok (Response 204 None)),
          [Write (delete_prompt asked_delete); Input "Yes"]
          ++ Http (delete_request sample_url asked_delete "s3cret") :: ev)
       ∧ requests_of ev = []).
Proof.
  split; [|split].
  - apply (proj1 (delete_command_confirmation sample_url sample_token_file
                    forced_delete (sample_world [] (Ok (Response 204 None))))).
    + reflexivity.
    + reflexivity.
  - pose proof (proj2 (delete_command_confirmation sample_url sample_token_file
                         asked_delete (sample_world ["NO"] (Ok (Response 204 None))))
                  eq_refl "NO" [] eq_refl) as H.
    cbv zeta in H. destruct H as [H _]. apply H.
    right. right. reflexivity.
  - pose proof (proj2 (delete_command_confirmation sample_url sample_token_file
                         asked_delete (sample_world ["Yes"] (Ok (Response 204 None))))
                  eq_refl "Yes" [] eq_refl) as H.
    cbv zeta in H. destruct H as (_ & H & _). apply H.
    + right. reflexivity.
    + reflexivity.
Defined.

(** C4 at work: a forced delete answered with 404. *)
Lemma delete_command_status_witness :
  ∃ message,
    delete_command sample_url sample_token_file forced_delete
      (sample_world [] (Ok (Response 404 None)))
    = (Returned tt, sample_world [] (Ok (Response 404 None)),
       [Http (delete_request sample_url forced_delete "s3cret"); Print message])
    ∧ requests_of [Http (delete_request sample_url forced_delete "s3cret");
                   Print message]
      = [delete_request sample_url forced_delete "s3cret"]
    ∧ message = "🚫  The label 'help wanted' doesn't exist in octo/repo.".
Proof.
  destruct (delete_command_status sample_url sample_token_file forced_delete
              (sample_world [] (Ok (Response 404 None))) "s3cret" [] []
              (Response 404 None))
    as (message & Hrun & Hone & _ & H404 & _).
  - reflexivity.
  - split; reflexivity.
  - reflexivity.
  - exists message. split; [exact Hrun|]. split; [exact Hone|].
    apply H404. reflexivity.
Defined.

(** C10 at work: a delete confirmed with "y" and answered with 500. *)
Lemma delete_command_failure_text_witness :
  delete_command sample_url sample_token_file asked_delete
    (sample_world ["y"] (Ok (Response 500 None)))
  = (Returned tt, sample_world [] (Ok (Response 500 None)),
     [Write (delete_prompt asked_delete); Input "y";
      Http (delete_request sample_url asked_delete "s3cret");
      Print "❌  Failed to create label."]).
Proof.
  apply (proj1 (delete_command_failure_text sample_url sample_token_file
                  sample_formatter asked_delete
                  (sample_world ["y"] (Ok (Response 500 None))) "s3cret" []
                  [Write (delete_prompt asked_delete); Input "y"]
                  (Response 500 None)
                  (sample_token_stored _ _) eq_refl eq_refl
                  ltac:(discriminate) ltac:(discriminate))).
Defined.

(** C7 at work: a repository without labels. *)
Lemma list_command_empty_witness :
  list_command sample_url sample_token_file sample_text_color sample_from_hex
    sample_bg sample_fg sample_attr (ListArgs "octo/repo" false)
    (sample_world [] (Ok (Response 200 (Some (PList [])))))
  = (Exited 0%Z, sample_world [] (Ok (Response 200 (Some (PList [])))),
     [Http (list_request sample_url (ListArgs "octo/repo" false) "s3cret");
      Print "❗  No labels found"]).
Proof.
  apply (proj1 (list_command_empty sample_url sample_token_file sample_text_color
                  sample_from_hex sample_bg sample_fg sample_attr
                  (ListArgs "octo/repo" false)
                  (sample_world [] (Ok (Response 200 (Some (PList [])))))
                  "s3cret" (Response 200 (Some (PList [])))
                  (sample_token_stored _ _) eq_refl eq_refl)).
Defined.

Definition sample_create : create_args := CreateArgs "octo/repo" ["help"; "wanted"] "ff0000".

Definition rejected_body : gmap string pyval :=
  <["message" := PStr "Validation Failed"]>
  (<["errors" := PList [PDict {[ "code" := PStr "already_exists" ]}]]> ∅).

(** C5 at work: a creation rejected with 422 and one validation error. *)
Lemma create_command_report_witness :
  create_command sample_url sample_token_file sample_formatter sample_create
    (sample_world [] (Ok (Response 422 (Some (PDict rejected_body)))))
  = (Returned tt, sample_world [] (Ok (Response 422 (Some (PDict rejected_body)))),
     [Http (create_request sample_url sample_create "s3cret");
      Print "label help wanted: already_exists"]).
Proof.
  pose proof (create_command_report sample_url sample_token_file sample_formatter
                sample_create
                (sample_world [] (Ok (Response 422 (Some (PDict rejected_body)))))
                "s3cret" (Response 422 (Some (PDict rejected_body)))
                (sample_token_stored _ _) eq_refl) as H.
  cbv zeta in H. destruct H as (_ & H & _).
  specialize (H ltac:(discriminate) rejected_body "Validation Failed").
  destruct H as (H & _ & _); [split; reflexivity|].
  specialize (H eq_refl [PDict {[ "code" := PStr "already_exists" ]}]
                ["label help wanted: already_exists"]).
  destruct H as [_ H]; [split; reflexivity|discriminate|].
  exact H.
Defined.

(** C5 as stated fails: a creation answered with status 502 and a body
    that is not JSON; the decoding raises and no failure line is printed. *)
Lemma create_command_undecodable_body :
  status_code (Response 502 None) ≠ 201%Z
  ∧ create_command sample_url sample_token_file sample_formatter sample_create
      (sample_world [] (Ok (Response 502 None)))
    = (Raised ValueError, sample_world [] (Ok (Response 502 None)),
       [Http (create_request sample_url sample_create "s3cret")])
  ∧ printed [Http (create_request sample_url sample_create "s3cret")] = [].
Proof.
  split; [discriminate|]. split; reflexivity.
Qed.

Definition sample_rows : list pyval :=
  [sample_label "bug" "ff0000"; sample_label "enhancement" "00ff00"].

(** C3 at work: the two labels of the end-to-end example are centred to
    width 11, the length of "enhancement". *)
Lemma list_command_width_witness :
  spacing_of (PList sample_rows) = Ok 11
  ∧ list_command sample_url sample_token_file sample_text_color sample_from_hex
      sample_bg sample_fg sample_attr (ListArgs "octo/repo" true)
      (sample_world [] (Ok (Response 200 (Some (PList sample_rows)))))
    = (Returned tt, sample_world [] (Ok (Response 200 (Some (PList sample_rows)))),
       [Http (list_request sample_url (ListArgs "octo/repo" true) "s3cret");
        Print "<bg><fg>     bug     <reset> [#ff0000]";
        Print "<bg><fg> enhancement <reset> [#00ff00]"])
  ∧ spacing_of (PList (reverse sample_rows)) = Ok 11.
Proof.
  pose proof (list_command_width sample_url sample_token_file sample_text_color
                sample_from_hex sample_bg sample_fg sample_attr
                (ListArgs "octo/repo" true)
                (sample_world [] (Ok (Response 200 (Some (PList sample_rows)))))
                "s3cret" (Response 200 (Some (PList sample_rows))) sample_rows
                (sample_token_stored _ _) eq_refl eq_refl) as H.
  cbv zeta in H. destruct H as (Hwidth & Hlines & Hperm & _).
  - discriminate.
  - repeat constructor; eexists; reflexivity.
  - split; [exact Hwidth|]. split.
    + apply (Hlines ["<bg><fg>     bug     <reset> [#ff0000]";
                     "<bg><fg> enhancement <reset> [#00ff00]"]).
      reflexivity.
    + apply Hperm. apply reverse_Permutation.
Defined.

Definition rename_update : update_args :=
  UpdateArgs "octo/repo" ["bug"] (Some ["hard"; "bug"]) None.







(** C8 at work: the token [s3cret] is written with its newline and loaded
    back unchanged. *)
Lemma auth_command_roundtrip_witness :
  ∃ w', auth_command sample_token_file (AuthArgs "s3cret")
          (World [] {[ sample_token_file := "old" ]} ∅ (λ _, Err RequestException))
        = (Returned tt, w', [Print "🚀  Authentication stored!"])
      ∧ files w' !! sample_token_file = Some ("s3cret" +:+ newline)
      ∧ get_access_token sample_token_file w'
        = (Returned (PyStr.strip "s3cret"), w', [])
      ∧ (PyStr.strip "s3cret" = "s3cret" →
         token_stored sample_token_file w' "s3cret").
Proof.
  apply (auth_command_roundtrip sample_token_file (AuthArgs "s3cret")
           (World [] {[ sample_token_file := "old" ]} ∅ (λ _, Err RequestException))).
  apply not_elem_of_empty.
Defined.

(** C8 as stated fails: the token [" x"], with a leading space, is saved
    and the load that follows returns ["x"]. *)
Lemma auth_command_trims_token :
  (auth_command sample_token_file (AuthArgs " x")
     (World [] ∅ ∅ (λ _, Err RequestException))).1.1 = Returned tt
  ∧ (get_access_token sample_token_file
       (auth_command sample_token_file (AuthArgs " x")
          (World [] ∅ ∅ (λ _, Err RequestException))).1.2).1.1 = Returned "x"
  ∧ "x" ≠ " x".
Proof.
  split; [reflexivity|]. split; [vm_compute; reflexivity|discriminate].
Qed.

(** C9 at work: a list request that cannot be sent, and a creation
    rejected with a body that is not JSON. *)
Lemma handlers_propagate_exceptions_witness :
  list_command sample_url sample_token_file sample_text_color sample_from_hex
    sample_bg sample_fg sample_attr (ListArgs "octo/repo" false)
    (sample_world [] (Err RequestException))
  = (Raised RequestException, sample_world [] (Err RequestException),
     [Http (list_request sample_url (ListArgs "octo/repo" false) "s3cret")])
  ∧ create_command sample_url sample_token_file sample_formatter sample_create
      (sample_world [] (Ok (Response 502 None)))
    = (Raised ValueError, sample_world [] (Ok (Response 502 None)),
       [Http (create_request sample_url sample_create "s3cret")]).
Proof.
  split.
  - pose proof (handlers_propagate_exceptions sample_url sample_token_file
                  sample_formatter sample_text_color sample_from_hex sample_bg
                  sample_fg sample_attr (sample_world [] (Err RequestException))
                  "s3cret" (sample_token_stored _ _)) as (H & _).
    apply H. reflexivity.
  - pose proof (handlers_propagate_exceptions sample_url sample_token_file
                  sample_formatter sample_text_color sample_from_hex sample_bg
                  sample_fg sample_attr (sample_world [] (Ok (Response 502 None)))
                  "s3cret" (sample_token_stored _ _))
      as (_ & _ & _ & _ & _ & H & _).
    apply (H sample_create (Response 502 None));
      [reflexivity|discriminate|reflexivity].
Defined.

(** C9 as stated fails: the service cannot be reached, [requests] raises,
    the exception leaves [list_command] and nothing is printed. *)
Lemma list_command_raises :
  (list_command sample_url sample_token_file sample_text_color sample_from_hex
     sample_bg sample_fg sample_attr (ListArgs "octo/repo" false)
     (sample_world [] (Err RequestException))).1.1 = Raised RequestException
  ∧ printed
      (list_command sample_url sample_token_file sample_text_color sample_from_hex
         sample_bg sample_fg sample_attr (ListArgs "octo/repo" false)
         (sample_world [] (Err RequestException))).2 = [].
Proof.
  split; reflexivity.
Qed.

(** ** The further properties on concrete invocations *)

(** X3 at work: two answers that are not understood, then "No", with one
    line left unread. *)
Lemma delete_command_after_ignored_answers_witness :
  delete_command sample_url sample_token_file asked_delete
    (sample_world ["maybe"; "ok"; "No"; "y"] (Ok (Response 204 None)))
  = (Returned tt, sample_world ["y"] (Ok (Response 204 None)),
     asked (delete_prompt asked_delete) ["maybe"; "ok"; "No"]).
Proof.
  apply (proj1 (delete_command_after_ignored_answers sample_url sample_token_file
                  asked_delete
                  (sample_world ["maybe"; "ok"; "No"; "y"] (Ok (Response 204 None)))
                  ["maybe"; "ok"] "No" ["y"] eq_refl eq_refl
                  ltac:(repeat constructor))).
  reflexivity.
Defined.

(** X4 at work: standard input ends after a line that is no answer. *)
Lemma delete_command_end_of_input_witness :
  delete_command sample_url sample_token_file asked_delete
    (sample_world ["maybe"] (Ok (Response 204 None)))
  = (Raised EOFError, sample_world [] (Ok (Response 204 None)),
     [Write (delete_prompt asked_delete); Input "maybe";
      Write (delete_prompt asked_delete)]).
Proof.
  apply (proj1 (delete_command_end_of_input sample_url sample_token_file
                  asked_delete (sample_world ["maybe"] (Ok (Response 204 None)))
                  eq_refl ltac:(repeat constructor))).
Defined.

(** X5 at work: a deletion that was sent after "hm" and "YES". *)
Lemma delete_command_request_needs_consent_witness :
  ∃ junk line rest,
    ["hm"; "YES"; "n"] = junk ++ line :: rest ∧ Forall ignored junk
    ∧ accepts line = true.
Proof.
  apply (delete_command_request_needs_consent sample_url sample_token_file
           asked_delete (sample_world ["hm"; "YES"; "n"] (Ok (Response 204 None)))).
  - reflexivity.
  - vm_compute. discriminate.
Defined.

(** X7 at work: a renaming rejected with one validation error; the
    formatter is given the old name. *)
Lemma update_command_report_witness :
  update_command sample_url sample_token_file sample_formatter rename_update
    (sample_world [] (Ok (Response 422 (Some (PDict rejected_body)))))
  = (Returned tt, sample_world [] (Ok (Response 422 (Some (PDict rejected_body)))),
     [Http (update_request sample_url rename_update "s3cret");
      Print "label bug: already_exists"]).
Proof.
  pose proof (update_command_report sample_url sample_token_file sample_formatter
                rename_update
                (sample_world [] (Ok (Response 422 (Some (PDict rejected_body)))))
                "s3cret" (Response 422 (Some (PDict rejected_body)))
                rejected_body "Validation Failed") as H.
  cbv zeta in H. destruct H as (H & _).
  - right. exists ["hard"; "bug"]. split; [reflexivity|discriminate].
  - reflexivity.
  - reflexivity.
  - discriminate.
  - split; reflexivity.
  - apply (H eq_refl [PDict {[ "code" := PStr "already_exists" ]}]
             ["label bug: already_exists"]).
    + split; reflexivity.
    + discriminate.
Defined.

(** X8 at work: a creation rejected with a JSON array as body. *)
Lemma rejected_with_malformed_body_witness :
  create_command sample_url sample_token_file sample_formatter sample_create
    (sample_world [] (Ok (Response 500 (Some (PList [])))))
  = (Raised AttributeError, sample_world [] (Ok (Response 500 (Some (PList [])))),
     [Http (create_request sample_url sample_create "s3cret")]).
Proof.
  pose proof (rejected_with_malformed_body sample_url sample_token_file
                sample_formatter
                (sample_world [] (Ok (Response 500 (Some (PList [])))))
                "s3cret" (Response 500 (Some (PList [])))
                (sample_token_stored _ _)) as (H & _).
  destruct (H sample_create eq_refl ltac:(discriminate)) as (Hobj & _).
  apply (Hobj (PList []) eq_refl I).
Defined.

Definition wordy_body : gmap string pyval :=
  <["message" := PStr "422: Validation Failed (see errors)"]>
  (<["errors" := PList [PDict {[ "code" := PStr "already_exists" ]}]]> ∅).

(** X9 at work: the text of the test in the middle of the message. *)
Lemma create_command_validation_test_witness :
  create_command sample_url sample_token_file sample_formatter sample_create
    (sample_world [] (Ok (Response 422 (Some (PDict wordy_body)))))
  = (Returned tt, sample_world [] (Ok (Response 422 (Some (PDict wordy_body)))),
     [Http (create_request sample_url sample_create "s3cret");
      Print "label help wanted: already_exists"]).
Proof.
  pose proof (create_command_validation_test sample_url sample_token_file
                sample_formatter sample_create
                (sample_world [] (Ok (Response 422 (Some (PDict wordy_body)))))
                "s3cret" (Response 422 (Some (PDict wordy_body))) wordy_body
                "422: Validation Failed (see errors)"
                [PDict {[ "code" := PStr "already_exists" ]}]
                ["label help wanted: already_exists"]
                (sample_token_stored _ _) eq_refl) as H.
  destruct H as (H & _).
  - discriminate.
  - split; reflexivity.
  - split; reflexivity.
  - discriminate.
  - apply H. exists "422: ", " (see errors)". reflexivity.
Defined.

Definition not_found_body : gmap string pyval := {[ "message" := PStr "Not Found" ]}.

(** X10 at work: the list of a repository that does not exist. *)
Lemma list_command_not_a_list_witness :
  list_command sample_url sample_token_file sample_text_color sample_from_hex
    sample_bg sample_fg sample_attr (ListArgs "octo/none" false)
    (sample_world [] (Ok (Response 404 (Some (PDict not_found_body)))))
  = (Raised TypeError,
     sample_world [] (Ok (Response 404 (Some (PDict not_found_body)))),
     [Http (list_request sample_url (ListArgs "octo/none" false) "s3cret")]).
Proof.
  pose proof (list_command_not_a_list sample_url sample_token_file
                sample_text_color sample_from_hex sample_bg sample_fg sample_attr
                (ListArgs "octo/none" false)
                (sample_world [] (Ok (Response 404 (Some (PDict not_found_body)))))
                "s3cret" (Response 404 (Some (PDict not_found_body)))
                (sample_token_stored _ _) eq_refl) as (_ & H & _).
  apply (H not_found_body eq_refl). discriminate.
Defined.

Definition nameless_rows : list pyval :=
  [sample_label "bug" "ff0000"] ++ PDict {[ "color" := PStr "00ff00" ]} :: [].

(** X11 at work: a label, then an object without a name. *)
Lemma list_command_row_without_name_witness :
  list_command sample_url sample_token_file sample_text_color sample_from_hex
    sample_bg sample_fg sample_attr (ListArgs "octo/repo" false)
    (sample_world [] (Ok (Response 200 (Some (PList nameless_rows)))))
  = (Raised KeyError,
     sample_world [] (Ok (Response 200 (Some (PList nameless_rows)))),
     [Http (list_request sample_url (ListArgs "octo/repo" false) "s3cret")]).
Proof.
  apply (list_command_row_without_name sample_url sample_token_file
           sample_text_color sample_from_hex sample_bg sample_fg sample_attr
           (ListArgs "octo/repo" false)
           (sample_world [] (Ok (Response 200 (Some (PList nameless_rows)))))
           "s3cret" (Response 200 (Some (PList nameless_rows)))
           [sample_label "bug" "ff0000"] [] {[ "color" := PStr "00ff00" ]}
           (sample_token_stored _ _) eq_refl eq_refl).
  - repeat constructor. eexists. reflexivity.
  - reflexivity.
Defined.

(** X12 at work: "bug" takes the eleven columns of "enhancement". *)
Lemma list_command_column_witness :
  PyStr.len (PyStr.center "bug" 11) = 11
  ∧ ∃ left right,
      PyStr.center "bug" 11 = PyStr.spaces left +:+ "bug" +:+ PyStr.spaces right.
Proof.
  apply (list_command_column sample_rows 11).
  - discriminate.
  - repeat constructor; eexists; reflexivity.
  - reflexivity.
  - vm_compute. set_solver.
Defined.

(** X14 at work: a token saved with a newline typed after it. *)
Lemma auth_command_then_request_witness :
  ∃ o ev,
    list_command sample_url sample_token_file sample_text_color sample_from_hex
      sample_bg sample_fg sample_attr (ListArgs "octo/repo" false)
      (auth_command sample_token_file (AuthArgs ("s3cret" +:+ newline))
         (World [] ∅ ∅ (λ _, Err RequestException))).1.2
    = (o,
       (auth_command sample_token_file (AuthArgs ("s3cret" +:+ newline))
          (World [] ∅ ∅ (λ _, Err RequestException))).1.2,
       Http (list_request sample_url (ListArgs "octo/repo" false)
               (PyStr.strip ("s3cret" +:+ newline))) :: ev).
Proof.
  pose proof (auth_command_then_request sample_url sample_token_file
                sample_formatter sample_text_color sample_from_hex sample_bg
                sample_fg sample_attr (AuthArgs ("s3cret" +:+ newline))
                (World [] ∅ ∅ (λ _, Err RequestException))) as H.
  cbv zeta in H. destruct H as (H & _).
  - apply not_elem_of_empty.
  - apply (H (ListArgs "octo/repo" false)).
Defined.

(** X15 at work: a creation with an empty colour still sends the field. *)
Lemma create_command_request_witness :
  ∃ payload o ev,
    create_command sample_url sample_token_file sample_formatter
      (CreateArgs "octo/repo" ["help"; "wanted"] "")
      (sample_world [] (Ok (Response 201 None)))
    = (o, sample_world [] (Ok (Response 201 None)),
       Http (Request POST
               (sample_url +:+ "/repos/"
                +:+ create_repo (CreateArgs "octo/repo" ["help"; "wanted"] "")
                +:+ "/labels")
               (access_params "s3cret") (Some payload)) :: ev)
    ∧ requests_of ev = []
    ∧ payload !! "name"
      = Some (PStr (PyStr.join " "
                      (create_name (CreateArgs "octo/repo" ["help"; "wanted"] ""))))
    ∧ payload !! "color"
      = Some (PStr (create_color (CreateArgs "octo/repo" ["help"; "wanted"] "")))
    ∧ ∀ k, k ≠ "name" → k ≠ "color" → payload !! k = None.
Proof.
  apply (create_command_request sample_url sample_token_file sample_formatter
           (CreateArgs "octo/repo" ["help"; "wanted"] "")
           (sample_world [] (Ok (Response 201 None))) "s3cret").
  reflexivity.
Defined.

(** A colour function that knows no colour [zzzzzz]. *)
Definition picky_from_hex (hex : string) : result Z :=
  if String.eqb hex "zzzzzz" then Err ValueError else Ok 9%Z.

Definition odd_rows : list pyval :=
  [sample_label "bug" "ff0000"] ++ sample_label "odd" "zzzzzz"
  :: [sample_label "enhancement" "00ff00"].

(** X16 at work: the second of three labels has a colour that is
    rejected; the first is listed, centred to the width of the third. *)
Lemma list_command_rejected_colour_witness :
  list_command sample_url sample_token_file sample_text_color picky_from_hex
    sample_bg sample_fg sample_attr (ListArgs "octo/repo" false)
    (sample_world [] (Ok (Response 200 (Some (PList odd_rows)))))
  = (Raised ValueError,
     sample_world [] (Ok (Response 200 (Some (PList odd_rows)))),
     Http (list_request sample_url (ListArgs "octo/repo" false) "s3cret")
     :: (Print <$> ["<bg><fg>     bug     <reset> "])).
Proof.
  pose proof (list_command_rejected_colour sample_url sample_token_file
                sample_text_color picky_from_hex sample_bg sample_fg sample_attr
                (ListArgs "octo/repo" false)
                (sample_world [] (Ok (Response 200 (Some (PList odd_rows)))))
                "s3cret" (Response 200 (Some (PList odd_rows)))
                [sample_label "bug" "ff0000"]
                [sample_label "enhancement" "00ff00"]
                (sample_label "odd" "zzzzzz") ("odd", "zzzzzz")
                ["<bg><fg>     bug     <reset> "] ValueError
                (sample_token_stored _ _) eq_refl eq_refl) as H.
  cbv zeta in H. apply H.
  - repeat constructor; eexists; reflexivity.
  - reflexivity.
  - reflexivity.
  - reflexivity.
Defined.
